(** * Avilla: relationship core and OneBot element library

    A shallow embedding of
      - [avilla/onebot/elements.py]   (display strings of the adapter elements)
      - [avilla/core/relationship.py] (RelationshipExecutor, Relationship)
    together with the properties of the design document that concern them.

    Python values are modelled as follows.
      - [str]            : [string]
      - [Optional[str]]  : [option string]
      - ordered [dict]   : association list, insertion order kept
      - exceptions       : the type [exn], class and message
      - coroutines       : functions returning an [outcome]
      - async generators : the finite list of yielded values together with
                           the exception, if any, that ends the iteration *)

From Stdlib Require Import String Ascii List Bool Arith Lia.
Import ListNotations.
Open Scope string_scope.

(* ================================================================== *)
(** * Python primitives shared by both source files                   *)
(* ================================================================== *)

Module Py.

(** Truthiness of a [str]: only the empty string is falsy. *)
Definition str_truthy (s : string) : bool :=
  match s with
  | EmptyString => false
  | String _ _ => true
  end.

(** [x or d] for [x : Optional[str]] and a [str] default [d]:
    [None] and [""] are both falsy, so both select [d]. *)
Definition str_or (x : option string) (d : string) : string :=
  match x with
  | None => d
  | Some s => if str_truthy s then s else d
  end.

(** [sep.join(xs)] *)
Definition join (sep : string) (xs : list string) : string :=
  String.concat sep xs.


(** Python exceptions raised by the modelled code: class and message. *)
Inductive exn : Type :=
| ValueError (msg : string)
| TypeError (msg : string)
| NotImplementedError (msg : string)
| IndexError (msg : string)
| AttributeError (msg : string)
| OtherError (cls msg : string).

Definition exn_message (e : exn) : string :=
  match e with
  | ValueError m | TypeError m | NotImplementedError m
  | IndexError m | AttributeError m => m
  | OtherError _ m => m
  end.

(** Result of awaiting a coroutine. *)
Inductive outcome (A : Type) : Type :=
| Returned (v : A)
| Raised (e : exn).
Arguments Returned {A} v.
Arguments Raised {A} e.

(** Ordered dictionaries with [str] keys. *)
Definition dict (V : Type) : Type := list (string * V).

Fixpoint dict_get {V} (d : dict V) (k : string) : option V :=
  match d with
  | [] => None
  | (k', v) :: rest => if String.eqb k' k then Some v else dict_get rest k
  end.

(** [d[k] = v]: an existing key keeps its position, a new key goes last. *)
Fixpoint dict_set {V} (d : dict V) (k : string) (v : V) : dict V :=
  match d with
  | [] => [(k, v)]
  | (k', v') :: rest =>
      if String.eqb k' k then (k', v) :: rest
      else (k', v') :: dict_set rest k v
  end.

Definition dict_keys {V} (d : dict V) : list string := map fst d.

End Py.

(* ================================================================== *)
(** * avilla/onebot/elements.py                                       *)
(* ================================================================== *)

Module Onebot.
Import Py.

Section Elements.

(** Python [float] and its rendering inside an f-string. *)
Variable pyfloat : Type.
Variable str_float : pyfloat -> string.

Record Poke : Type := mkPoke {
  poke_type : string;
  poke_id : string;
  poke_name : option string
}.

Record Share : Type := mkShare {
  share_url : string;
  share_title : string;
  share_content : option string;
  share_image : option string
}.

Record Location : Type := mkLocation {
  loc_lat : pyfloat;
  loc_lon : pyfloat;
  loc_title : option string;
  loc_content : option string
}.

Record MusicShare : Type := mkMusicShare {
  music_type : string;
  music_id : string
}.

Record CustomMusicShare : Type := mkCustomMusicShare {
  cms_url : string;
  cms_audio : string;
  cms_title : string;
  cms_content : option string;
  cms_image : option string
}.

(** [Poke.asDisplay]: a one-line f-string. *)
Definition Poke_asDisplay (self : Poke) : string :=
  "[$onebot::Poke:type=" ++ poke_type self
  ++ ",id=" ++ poke_id self
  ++ ",name=" ++ str_or (poke_name self) "null" ++ "]".

(** [MusicShare.asDisplay]: a one-line f-string. *)
Definition MusicShare_asDisplay (self : MusicShare) : string :=
  "[$onebot::MusicShare:type=" ++ music_type self
  ++ ",id=" ++ music_id self ++ "]".

(** [Share.asDisplay].  The f-string literal is broken over five source
    lines with a backslash before each line break.  Inside a string
    literal the backslash removes the line break only: the twelve
    blanks that indent each continuation line stay in the string. *)
Definition Share_asDisplay (self : Share) : string :=
  "[$onebot::Share:"
  ++ "            url=" ++ share_url self ++ ","
  ++ "            title=" ++ share_title self ++ ","
  ++ "            content=" ++ str_or (share_content self) "null" ++ ","
  ++ "            image=" ++ str_or (share_image self) "null" ++ "]".

(** [Location.asDisplay], same layout of the literal. *)
Definition Location_asDisplay (self : Location) : string :=
  "[$onebot::Location:"
  ++ "            lat=" ++ str_float (loc_lat self) ++ ","
  ++ "            lon=" ++ str_float (loc_lon self) ++ ","
  ++ "            title=" ++ str_or (loc_title self) "null" ++ ","
  ++ "            content=" ++ str_or (loc_content self) "null" ++ "]".

(** [CustomMusicShare.asDisplay], same layout of the literal. *)
Definition CustomMusicShare_asDisplay (self : CustomMusicShare) : string :=
  "[$onebot::CustomMusicShare:"
  ++ "            url=" ++ cms_url self ++ ","
  ++ "            audio=" ++ cms_audio self ++ ","
  ++ "            title=" ++ cms_title self ++ ","
  ++ "            content=" ++ str_or (cms_content self) "null" ++ ","
  ++ "            image=" ++ str_or (cms_image self) "null" ++ "]".

(** The display formats of the element table of the design document,
    written from its words, for comparison with the code. *)
Definition Share_display_spec (u t : string) (c i : option string) : string :=
  "[$onebot::Share:url=" ++ u ++ ",title=" ++ t
  ++ ",content=" ++ match c with Some s => s | None => "null" end
  ++ ",image=" ++ match i with Some s => s | None => "null" end ++ "]".

End Elements.

Arguments mkLocation {pyfloat}.
Arguments loc_lat {pyfloat}.
Arguments loc_lon {pyfloat}.
Arguments loc_title {pyfloat}.
Arguments loc_content {pyfloat}.
Arguments Location_asDisplay {pyfloat}.

End Onebot.

(* ================================================================== *)
(** * avilla/core/relationship.py                                     *)
(* ================================================================== *)

Module Core.
Import Py.

(** ** Selectors (avilla.core.utilles.selector, not part of the sources) *)

(** A level value: a concrete [str], or a wildcard marker (any value
    for which [isinstance(value, str)] is false). *)
Inductive pvalue : Type :=
| PStr (s : string)
| PWild.

(** [Selector] and its subclass [DynamicSelector] both carry one
    attribute, the ordered dictionary [pattern]. *)
Record Selector : Type := mkSelector { pattern : dict pvalue }.
Definition DynamicSelector : Type := Selector.

Record Land : Type := mkLand { land_name : string }.

(** Modelled from the spec: [Selector.empty] is missing from the sources;
    "a selector is empty iff it has zero keys". *)
Definition Selector_empty (s : Selector) : bool :=
  match pattern s with
  | [] => true
  | _ :: _ => false
  end.

(** Modelled from the spec: [Selector.path] is missing from the sources;
    "path is the dot-joined key sequence". *)
Definition Selector_path (s : Selector) : string :=
  join "." (dict_keys (pattern s)).

(** Modelled from the spec: [Selector.from_dict] is missing from the
    sources; "builds a selector from an ordered key/value mapping". *)
Definition Selector_from_dict (d : dict pvalue) : Selector := mkSelector d.

(** Modelled from the spec: [Selector.copy] is missing from the sources;
    "mutating the copy's pattern never affects the original".  Values of
    the embedding are immutable, so the copy is the value itself. *)
Definition Selector_copy (s : Selector) : Selector := mkSelector (pattern s).

(** Modelled from the spec: the fluent setter [Selector().land(land)] is
    missing from the sources; "a bare land selector". *)
Definition Selector_land (l : Land) : Selector :=
  mkSelector [("land", PStr (land_name l))].

Definition pvalue_eqb (a b : pvalue) : bool :=
  match a, b with
  | PStr x, PStr y => String.eqb x y
  | PWild, PWild => true
  | _, _ => false
  end.

(** Modelled from the spec: [DynamicSelector.match] is missing from the
    sources; "true iff every concrete key/value pair in the pattern is
    present and equal in other". *)
Definition Selector_match (self : DynamicSelector) (other : Selector) : bool :=
  forallb
    (fun kv =>
       match snd kv with
       | PWild => true
       | PStr v =>
           match dict_get (pattern other) (fst kv) with
           | Some w => pvalue_eqb (PStr v) w
           | None => false
           end
       end)
    (pattern self).

(** ** Protocol-side objects *)

(** The data attributes of a [Relationship], as handed to protocol code
    that is called back with the relationship.  The protocol and the list
    [_middlewares] of the relationship are not part of it: protocol code
    is taken not to read them back from the relationship. *)
Record rs_scope : Type := mkScope {
  scope_ctx : Selector;
  scope_mainline : Selector;
  scope_current : string;
  scope_via : option Selector
}.

(** Values returned by action executors. *)
Inductive pyval : Type :=
| PyNone
| PyVal (v : string).

(** [Action]: the class name used in messages, the explicit target set by
    [set_target], and the target [set_default_target] resolves. *)
Record Action : Type := mkAction {
  action_class_name : string;
  action_target : option Selector;
  set_default_target : rs_scope -> option Selector
}.

Definition set_target (a : Action) (target : Selector) : Action :=
  mkAction (action_class_name a) (Some target) (set_default_target a).

(** What the [__aexit__] of a context manager does with the exception in
    flight: return a value (truthy means "suppress"), or raise. *)
Inductive exit_result : Type :=
| ExitReturn (suppress : bool)
| ExitRaise (e : exn).

(** [ActionMiddleware]: a callable giving an async context manager.
    [mw_enter] is [Some e] when creating or entering the context raises. *)
Record ActionMiddleware : Type := mkMiddleware {
  mw_name : string;
  mw_enter : option exn;
  mw_exit : option exn -> exit_result
}.

Record ActionExecutor : Type := mkExecutor {
  ex_name : string;
  ex_pattern : option DynamicSelector;
  ex_execute : rs_scope -> Action -> outcome pyval
}.

(** An async generator seen from its consumer: the values it yields, in
    order, and the exception that ends the iteration, if any. *)
Definition stream : Type := (list Selector * option exn)%type.

(** A query generator receives the relationship, the upstream selector
    and the bound method [depth.match]. *)
Definition querier_fn : Type := rs_scope -> Selector -> (Selector -> bool) -> stream.

Record QueryHandler : Type := mkQueryHandler {
  qh_prefix : option string;
  queriers : dict querier_fn
}.

Record MetadataSource : Type := mkSource { source_name : string }.

Record ResourceProvider : Type := mkProvider {
  provider_name : string;
  get_metadata_source : option MetadataSource
}.

Record Resource : Type := mkResource { resource_name : string }.

Record Avilla : Type := mkAvilla {
  app_action_middlewares : list ActionMiddleware
}.

Record BaseProtocol : Type := mkProtocol {
  avilla : Avilla;
  land : Land;
  action_executors : list ActionExecutor;
  action_middlewares : list ActionMiddleware;
  query_handlers : list QueryHandler;
  get_metadata_provider : Selector -> option MetadataSource;
  get_provider : Resource -> option ResourceProvider
}.

(** ** Relationship and RelationshipExecutor *)

Record Relationship : Type := mkRelationship {
  protocol : BaseProtocol;
  ctx : Selector;
  mainline : Selector;
  current : string;
  via : option Selector;
  _middlewares : list ActionMiddleware
}.

Definition scope_of (rs : Relationship) : rs_scope :=
  mkScope (ctx rs) (mainline rs) (current rs) (via rs).

Record RelationshipExecutor : Type := mkRelationshipExecutor {
  relationship : Relationship;
  action : option Action;
  middlewares : list ActionMiddleware;
  _target : option Selector
}.

(** [RelationshipExecutor.__init__]; [Relationship.exec] *)
Definition RelationshipExecutor_init (rs : Relationship) : RelationshipExecutor :=
  mkRelationshipExecutor rs None
    (action_middlewares (protocol rs)
       ++ app_action_middlewares (avilla (protocol rs)))%list
    None.

Definition exec (rs : Relationship) : RelationshipExecutor :=
  RelationshipExecutor_init rs.

(** [RelationshipExecutor.execute] *)
Definition execute (self : RelationshipExecutor) (a : Action) : RelationshipExecutor :=
  mkRelationshipExecutor (relationship self) (Some a) (middlewares self)
    (set_default_target a (scope_of (relationship self))).

(** [RelationshipExecutor.to] *)
Definition to (self : RelationshipExecutor) (target : Selector)
  : outcome RelationshipExecutor :=
  match action self with
  | None => Raised (AttributeError "'RelationshipExecutor' object has no attribute 'action'")
  | Some a =>
      Returned (mkRelationshipExecutor (relationship self)
                  (Some (set_target a target)) (middlewares self) (Some target))
  end.

(** [RelationshipExecutor.use] *)
Definition use (self : RelationshipExecutor) (middleware : list ActionMiddleware)
  : RelationshipExecutor :=
  mkRelationshipExecutor (relationship self) (action self)
    (middlewares self ++ middleware)%list (_target self).

(** Observable steps of one awaited execution. *)
Inductive event : Type :=
| EvEnter (mw : string)
| EvExit (mw : string)
| EvExecute (ex : string).

(** The loop [for middleware in reversed(self.middlewares)] is run on the
    reversed list; [stack] is the exit stack, last entered first. *)
Fixpoint enter_contexts (ms stack : list ActionMiddleware)
  : list event * list ActionMiddleware * option exn :=
  match ms with
  | [] => ([], stack, None)
  | m :: rest =>
      match mw_enter m with
      | Some e => ([], stack, Some e)
      | None =>
          let '(tr, st, err) := enter_contexts rest (m :: stack) in
          (EvEnter (mw_name m) :: tr, st, err)
      end
  end.

(** The loop over [self.relationship.protocol.action_executors]. *)
Fixpoint select_executor (executors : list ActionExecutor) (target : option Selector)
  : option ActionExecutor :=
  match executors with
  | [] => None
  | executor :: rest =>
      match ex_pattern executor with
      | None => Some executor
      | Some p =>
          match target with
          | Some t =>
              if Selector_match p t then Some executor
              else select_executor rest target
          | None => select_executor rest target
          end
      end
  end.

(** The body of the [async with] block after the middleware loop. *)
Definition dispatch (self : RelationshipExecutor) : list event * outcome pyval :=
  match action self with
  | None => ([], Raised (AttributeError "'RelationshipExecutor' object has no attribute 'action'"))
  | Some a =>
      match select_executor (action_executors (protocol (relationship self)))
              (_target self) with
      | Some executor =>
          ([EvExecute (ex_name executor)],
           ex_execute executor (scope_of (relationship self)) a)
      | None =>
          match _target self with
          | Some t =>
              ([], Raised (NotImplementedError
                     ("No action executor found for " ++ action_class_name a
                      ++ ", target for " ++ Selector_path t)))
          | None =>
              ([], Raised (NotImplementedError
                     ("No action executor found for " ++ action_class_name a)))
          end
      end
  end.

(** [AsyncExitStack.__aexit__]: every registered exit runs, last entered
    first; a truthy return clears the exception in flight, a raise
    replaces it.  The state is (exception in flight, suppressed_exc,
    pending_raise). *)
Fixpoint exit_callbacks (stack : list ActionMiddleware)
    (exc : option exn) (suppressed pending : bool)
  : list event * (option exn * bool * bool) :=
  match stack with
  | [] => ([], (exc, suppressed, pending))
  | m :: rest =>
      let '(exc', suppressed', pending') :=
        match mw_exit m exc with
        | ExitReturn true => (None, true, false)
        | ExitReturn false => (exc, suppressed, pending)
        | ExitRaise e => (Some e, suppressed, true)
        end in
      let '(tr, st) := exit_callbacks rest exc' suppressed' pending' in
      (EvExit (mw_name m) :: tr, st)
  end.

(** Leaving [async with AsyncExitStack() as stack] with the outcome of
    its body.  A suppressed exception lets the coroutine fall off its
    end, which returns [None]. *)
Definition async_with_exit (stack : list ActionMiddleware) (body : outcome pyval)
  : list event * outcome pyval :=
  let received := match body with Raised e => Some e | Returned _ => None end in
  let '(tr, (exc, suppressed, pending)) := exit_callbacks stack received false false in
  (tr,
   if pending then
     match exc with
     | Some e => Raised e
     | None => body
     end
   else
     match body with
     | Returned v => Returned v
     | Raised e => if suppressed then Returned PyNone else Raised e
     end).

(** [RelationshipExecutor.__await_impl__] *)
Definition await_impl (self : RelationshipExecutor) : list event * outcome pyval :=
  let '(tr_enter, stack, err) := enter_contexts (rev (middlewares self)) [] in
  let '(tr_body, body) :=
    match err with
    | Some e => ([], Raised e)
    | None => dispatch self
    end in
  let '(tr_exit, result) := async_with_exit stack body in
  ((tr_enter ++ tr_body ++ tr_exit)%list, result).

(** [Relationship.check]: the body of the implementation is [...]. *)
Definition check (self : Relationship) (target : option Selector) (strict : bool)
  : outcome (option bool) :=
  Returned None.

(** ** Relationship.query *)

(** [stack[-1] if stack else None] *)
Definition top {A} (stack : list A) : option A :=
  match rev stack with
  | [] => None
  | x :: _ => Some x
  end.

(** [generate_with_specified(k, v)(upper)] *)
Definition generate_with_specified (k v : string) (upper : option stream) : stream :=
  match upper with
  | None => ([Selector_from_dict [(k, PStr v)]], None)
  | Some (values, err) =>
      (map (fun upper_value =>
              let a := Selector_copy upper_value in
              mkSelector (dict_set (pattern a) k (PStr v)))
           values,
       err)
  end.

(** [{"land": name, **d}] *)
Definition with_land (name : string) (d : dict pvalue) : dict pvalue :=
  fold_left (fun acc kv => dict_set acc (fst kv) (snd kv)) d [("land", PStr name)].

(** The [for querier in self.protocol.query_handlers] loop with its
    [break]; [None] is the [else] branch of the loop. *)
Fixpoint find_query_handler (handlers : list QueryHandler) (past : string)
  : option QueryHandler :=
  match handlers with
  | [] => None
  | querier :: rest =>
      match qh_prefix querier with
      | None => Some querier
      | Some p => if String.eqb p past then Some querier
                  else find_query_handler rest past
      end
  end.

(** [async for upper_value in upper: async for current_value in f(upper_value)]:
    the inner generator is drained for each upstream value in turn; an
    exception of the inner generator ends the iteration at once, the
    exception of the upstream one after the values before it. *)
Fixpoint expand (f : Selector -> stream) (values : list Selector) (err : option exn)
  : stream :=
  match values with
  | [] => ([], err)
  | upper_value :: rest =>
      let '(ys, e) := f upper_value in
      match e with
      | Some x => (ys, Some x)
      | None => let '(zs, e') := expand f rest err in ((ys ++ zs)%list, e')
      end
  end.

(** [generate_from_upper(depth, upper)] *)
Definition generate_from_upper (self : Relationship)
    (depth : DynamicSelector) (upper : option stream) : stream :=
  let depth_keys := dict_keys (pattern depth) in
  match depth_keys with
  | [] => ([], None)
  | first_key :: _ =>
      let current := last depth_keys "" in
      let past := join "." (removelast depth_keys) in
      let depth' :=
        if negb (String.eqb first_key "land")
        then mkSelector (with_land (land_name (land (protocol self))) (pattern depth))
        else depth in
      match find_query_handler (query_handlers (protocol self)) past with
      | None =>
          ([], Some (NotImplementedError ("No query handler found for " ++ past)))
      | Some querier =>
          match dict_get (queriers querier) current with
          | None =>
              ([], Some (NotImplementedError
                     ("No querier found for " ++ past ++ ", " ++ current
                      ++ " unimplemented")))
          | Some q =>
              match upper with
              | None =>
                  q (scope_of self) (Selector_land (land (protocol self)))
                    (Selector_match depth')
              | Some (values, err) =>
                  expand (fun upper_value =>
                            q (scope_of self) upper_value (Selector_match depth'))
                    values err
              end
          end
      end
  end.

(** One turn of [for key, value in selector.pattern.items()]; the state is
    the dictionary [past] and the list [stack]. *)
Definition query_step (self : Relationship)
    (st : dict pvalue * list stream) (kv : string * pvalue)
  : dict pvalue * list stream :=
  let '(past, stack) := st in
  let '(key, value) := kv in
  if String.eqb key "land" then st
  else
    let past' := dict_set past key value in
    let current_pattern := mkSelector past' in
    match value with
    | PStr v =>
        (past', (stack ++ [generate_with_specified key v (top stack)])%list)
    | PWild =>
        (past', (stack ++ [generate_from_upper self current_pattern (top stack)])%list)
    end.

(** [Relationship.query] *)
Definition query (self : Relationship) (selector : Selector) : stream :=
  if Selector_empty selector then ([], Some (ValueError "Selector is empty."))
  else
    let '(_, stack) := fold_left (query_step self) (pattern selector) ([], []) in
    match top stack with
    | None => ([], Some (IndexError "list index out of range"))
    | Some s => s
    end.

(** ** Relationship.meta *)

(** An object passed as target, through what the method asks of it:
    [str(o)], [bool(o)], [isinstance(o, Selector)] (then the selector it
    is), [isinstance(o, Selectable)] (then [o.to_selector()]) and
    [isinstance(o, Resource)]. *)
Record pyobject : Type := mkObject {
  obj_str : string;
  obj_truthy : bool;
  obj_as_selector : option Selector;
  obj_to_selector : option Selector;
  obj_as_resource : option Resource
}.

(** A metadata model: [str(model)] and [model.get_default_target]. *)
Record Model : Type := mkModel {
  model_str : string;
  get_default_target : rs_scope -> option pyobject
}.

Record MetadataModifies : Type := mkModifies {
  modifies_str : string;
  modifies_model : Model
}.

(** The values the two positional parameters of [meta] may hold. *)
Inductive pyany : Type :=
| AMetadata (m : Model)
| ACellOf (m : Model)
| ACellCompose (m : Model)
| AModifies (m : MetadataModifies)
| AObject (o : pyobject).

Definition any_str (a : pyany) : string :=
  match a with
  | AMetadata m | ACellOf m | ACellCompose m => model_str m
  | AModifies m => modifies_str m
  | AObject o => obj_str o
  end.

Definition any_truthy (a : pyany) : bool :=
  match a with
  | AObject o => obj_truthy o
  | _ => true
  end.

Definition opt_str (a : option pyany) : string :=
  match a with
  | None => "None"
  | Some x => any_str x
  end.

(** The [isinstance] cascade on [op]: [(modify, model)], or nothing. *)
Definition classify (op : pyany) : option (option MetadataModifies * Model) :=
  match op with
  | AMetadata m | ACellOf m | ACellCompose m => Some (None, m)
  | AModifies md => Some (Some md, modifies_model md)
  | AObject _ => None
  end.

(** [target or model.get_default_target(self)] *)
Definition target_or (target : option pyany) (default : option pyany) : option pyany :=
  match target with
  | None => default
  | Some t => if any_truthy t then Some t else default
  end.

Inductive meta_result : Type :=
| MetaRaised (e : exn)
| MetaFetch (source : MetadataSource) (target : pyany) (model : Model)
| MetaModify (source : MetadataSource) (target : pyany) (modify : MetadataModifies).

Definition as_selector (t : pyany) : option Selector :=
  match t with AObject o => obj_as_selector o | _ => None end.
Definition to_selector (t : pyany) : option Selector :=
  match t with AObject o => obj_to_selector o | _ => None end.
Definition as_resource (t : pyany) : option Resource :=
  match t with AObject o => obj_as_resource o | _ => None end.

(** The part of [meta] after the target is known. *)
Definition meta_dispatch (self : Relationship)
    (modify : option MetadataModifies) (model : Model) (target : pyany)
  : meta_result :=
  let target_ref :=
    match as_selector target with
    | Some s => Returned s
    | None =>
        match to_selector target with
        | None =>
            Raised (ValueError
              (any_str target
               ++ " is not a supported target for rs.meta, which requires to be selectable."))
        | Some s => Returned s
        end
    end in
  match target_ref with
  | Raised e => MetaRaised e
  | Returned target_ref =>
      let source :=
        match as_resource target with
        | Some r =>
            match get_provider (protocol self) r with
            | None =>
                Raised (ValueError
                  ("cannot find a valid provider for resource " ++ any_str target
                   ++ " to use rs.meta"))
            | Some provider => Returned (get_metadata_source provider)
            end
        | None => Returned (get_metadata_provider (protocol self) target_ref)
        end in
      match source with
      | Raised e => MetaRaised e
      | Returned None =>
          match modify with
          | None =>
              MetaRaised (ValueError
                (model_str model
                 ++ " is not a supported metadata at present, which not ordered by any source."))
          | Some _ =>
              MetaRaised (ValueError
                (model_str model
                 ++ "'s modify is not a supported metadata at present, which not ordered by any source."))
          end
      | Returned (Some source) =>
          match modify with
          | None => MetaFetch source target model
          | Some modify => MetaModify source target modify
          end
      end
  end.

(** [Relationship.meta(op_or_target, maybe_op=None)] *)
Definition meta (self : Relationship) (op_or_target : pyany) (maybe_op : option pyany)
  : meta_result :=
  let '(op, target) :=
    match maybe_op with
    | None => (op_or_target, None)
    | Some m => (m, Some op_or_target)
    end in
  match classify op with
  | None =>
      MetaRaised (TypeError
        (any_str op_or_target ++ " & " ++ opt_str maybe_op
         ++ " is not a supported metadata operation for rs.meta."))
  | Some (modify, model) =>
      let target :=
        target_or target
          (option_map AObject (get_default_target model (scope_of self))) in
      match target with
      | None =>
          MetaRaised (ValueError
            (model_str model
             ++ "'s modify is not a supported metadata for rs.meta, which requires a categorical target."))
      | Some target => meta_dispatch self modify model target
      end
  end.

End Core.

(* ================================================================== *)
(** * Properties named by the design document, as predicates          *)
(* ================================================================== *)

Module Props.
Import Py Core.

(** An executor is eligible for a resolved target when its pattern is
    absent, or when a target was resolved and the pattern matches it. *)
Definition eligible (target : option Selector) (e : ActionExecutor) : bool :=
  match ex_pattern e with
  | None => true
  | Some p =>
      match target with
      | Some t => Selector_match p t
      | None => false
      end
  end.

(** A middleware that enters without raising. *)
Definition enters (m : ActionMiddleware) : Prop := mw_enter m = None.


Definition enter_events (ms : list ActionMiddleware) : list event :=
  map (fun m => EvEnter (mw_name m)) ms.

Definition exit_events (ms : list ActionMiddleware) : list event :=
  map (fun m => EvExit (mw_name m)) ms.

(** The entries of a query pattern that open a stage: all but ["land"]. *)
Definition without_land (d : dict pvalue) : dict pvalue :=
  filter (fun kv => negb (String.eqb (fst kv) "land")) d.

(** The dot-joined keys seen before the current level. *)
Definition seen_path (d : dict pvalue) : string :=
  join "." (dict_keys (without_land d)).

(** The two lookups of a wildcard stage, as the outcome they lead to. *)
Definition stage_lookup_fails (self : Relationship) (past current : string) : Prop :=
  find_query_handler (query_handlers (protocol self)) past = None
  \/ exists querier,
      find_query_handler (query_handlers (protocol self)) past = Some querier
      /\ dict_get (queriers querier) current = None.

(** The state [(past, stack)] of the loop of [query] after the entries
    [p] of the pattern. *)
Definition query_state (self : Relationship) (p : dict pvalue)
  : dict pvalue * list stream :=
  fold_left (query_step self) p ([], []).

(** A generator that raises NotImplementedError before its first value. *)
Definition raises_at_once (s : option stream) : Prop :=
  exists msg, s = Some ([], Some (NotImplementedError msg)).

(** [a.pattern[k] = v] on a copy of an upstream selector. *)
Definition narrow (k v : string) (u : Selector) : Selector :=
  mkSelector (dict_set (pattern u) k (PStr v)).

End Props.

(* ================================================================== *)
(** * Concrete configurations used to exercise the statements         *)
(* ================================================================== *)

Module Examples.
Import Py Core Props.

Definition quiet (name : string) : ActionMiddleware :=
  mkMiddleware name None (fun _ => ExitReturn false).

Definition mwA : ActionMiddleware := quiet "A".
Definition mwB : ActionMiddleware := quiet "B".
Definition mwP : ActionMiddleware := quiet "protocol-level".
Definition mwG : ActionMiddleware := quiet "framework-level".

Definition sel_ab : Selector :=
  mkSelector [("land", PStr "qq"); ("a", PStr "1"); ("b", PStr "2")].
Definition sel_a : Selector :=
  mkSelector [("land", PStr "qq"); ("a", PStr "1")].

Definition ex_full : ActionExecutor :=
  mkExecutor "full" (Some sel_ab) (fun _ _ => Returned (PyVal "full")).
Definition ex_prefix : ActionExecutor :=
  mkExecutor "prefix" (Some sel_a) (fun _ _ => Returned (PyVal "prefix")).
Definition ex_default : ActionExecutor :=
  mkExecutor "default" None (fun _ _ => Returned (PyVal "default")).
Definition ex_failing : ActionExecutor :=
  mkExecutor "failing" None (fun _ _ => Raised (OtherError "RuntimeError" "boom")).

Definition guild (g : string) : Selector :=
  mkSelector [("land", PStr "qq"); ("guild", PStr g)].

(** A root-level query handler that lists two guilds of the land. *)
Definition guild_handler : QueryHandler :=
  mkQueryHandler None
    [("guild", fun _ _ _ => ([guild "G1"; guild "G2"], None))].

(** A handler that serves the levels below a guild only. *)
Definition channel_handler : QueryHandler :=
  mkQueryHandler (Some "guild")
    [("channel", fun _ upper _ =>
                   ([mkSelector (dict_set (pattern upper) "channel" (PStr "C1"))], None))].

Definition mk_protocol (app_mws proto_mws : list ActionMiddleware)
    (executors : list ActionExecutor) (handlers : list QueryHandler) : BaseProtocol :=
  mkProtocol (mkAvilla app_mws) (mkLand "qq") executors proto_mws handlers
    (fun _ => None) (fun _ => None).

Definition mk_rs (p : BaseProtocol) : Relationship :=
  mkRelationship p sel_ab sel_a "bot" None [].

Definition send : Action :=
  mkAction "MessageSend" None (fun _ => Some sel_ab).

(** Middlewares [A, B], one default executor. *)
Definition rs_AB : Relationship :=
  mk_rs (mk_protocol [] [mwA; mwB] [ex_default] []).
Definition rs_AB_failing : Relationship :=
  mk_rs (mk_protocol [] [mwA; mwB] [ex_failing] []).

(** One protocol-level and one framework-level middleware. *)
Definition rs_PG : Relationship :=
  mk_rs (mk_protocol [mwG] [mwP] [ex_default] []).

Definition rs_ordered : Relationship :=
  mk_rs (mk_protocol [] [] [ex_full; ex_prefix; ex_default] []).


Definition rs_guilds : Relationship :=
  mk_rs (mk_protocol [] [] [] [guild_handler]).
Definition rs_channels_only : Relationship :=
  mk_rs (mk_protocol [] [] [] [channel_handler]).

(** A metadata model that declares no default target. *)
Definition nickname : Model := mkModel "Nickname" (fun _ => None).

End Examples.

(* ================================================================== *)
(** * The remaining element classes of avilla/onebot/elements.py      *)
(* ================================================================== *)

From Stdlib Require Import ZArith DecimalString.

Module OnebotElements.
Import Py Onebot.

(** [str(n)] for a Python [int]. *)
Definition str_int (n : Z) : string := NilZero.string_of_int (Z.to_int n).

Section AllElements.

(** [float], the base class [Image] of [FlashImage] and [MessageChain]
    live outside the file; so do their renderings inside an f-string. *)
Variables pyfloat Image MessageChain : Type.
Variable str_float : pyfloat -> string.
Variable str_chain : MessageChain -> string.

(** One constructor per class of the module, with the attributes that
    [__init__] stores. *)
Inductive Element : Type :=
| EFlashImage (image : Image)
| EFace (id : Z)
| ERps
| EDice
| EShake
| EPoke (poke : Poke)
| EAnonymous (ignore : bool)
| EShare (share : Share)
| EFriendRecommend (id : string)
| EGroupRecommend (id : string)
| ELocation (location : Location pyfloat)
| EMusicShare (music : MusicShare)
| ECustomMusicShare (music : CustomMusicShare)
| EReply (id : string)
| EMergedForward (id : string)
| EMergedForwardNode (id : string)
| EMergedForwardCustomNode (user_id nickname : string) (content : MessageChain)
| EXmlMessage (xml : string)
| EJsonMessage (json : string).

(** The method [asDisplay] of each class. *)
Definition asDisplay (self : Element) : string :=
  match self with
  | EFlashImage _ => "[$onebot::FlashImage]"
  | EFace id => "[$onebot::Face:id=" ++ str_int id ++ "]"
  | ERps => "[$onebot::Rps]"
  | EDice => "[$onebot::Dice]"
  | EShake => "[$onebot::Shake]"
  | EPoke poke => Poke_asDisplay poke
  | EAnonymous _ => "[$onebot::#Anonymous#]"
  | EShare share => Share_asDisplay share
  | EFriendRecommend id => "[$onebot::FriendRecommend:id=" ++ id ++ "]"
  | EGroupRecommend id => "[$onebot::GroupRecommend:id=" ++ id ++ "]"
  | ELocation location => Location_asDisplay str_float location
  | EMusicShare music => MusicShare_asDisplay music
  | ECustomMusicShare music => CustomMusicShare_asDisplay music
  | EReply id => "[$onebot::Reply:id=" ++ id ++ "]"
  | EMergedForward id => "[$onebot::MergedForward:id=" ++ id ++ "]"
  | EMergedForwardNode id => "[$onebot::MergedForwardNode:id=" ++ id ++ "]"
  | EMergedForwardCustomNode user_id nickname content =>
      "[$onebot::MergedForwardCustomNode:"
      ++ "            user_id=" ++ user_id ++ ","
      ++ "            nickname=" ++ nickname ++ ","
      ++ "            content=" ++ str_chain content ++ "]"
  | EXmlMessage xml => "[$onebot::XmlMessage:xml=" ++ xml ++ "]"
  | EJsonMessage json => "[$onebot::JsonMessage:json=" ++ json ++ "]"
  end.

End AllElements.

(** The classes whose only attribute is one string. *)
Definition single_string_field {pyfloat Image MessageChain : Type}
    (e : Element pyfloat Image MessageChain) : bool :=
  match e with
  | EFriendRecommend _ _ _ _ | EGroupRecommend _ _ _ _ | EReply _ _ _ _
  | EMergedForward _ _ _ _ | EMergedForwardNode _ _ _ _
  | EXmlMessage _ _ _ _ | EJsonMessage _ _ _ _ => true
  | _ => false
  end.

(** The last character of a string, if any. *)
Fixpoint last_char (s : string) : option ascii :=
  match s with
  | EmptyString => None
  | String c rest =>
      match last_char rest with
      | None => Some c
      | Some d => Some d
      end
  end.

End OnebotElements.

(* ================================================================== *)
(** * Further notions about relationship.py                           *)
(* ================================================================== *)

Module Derived.
Import Py Core Props.



(** The predicate [ex_pattern e is None]. *)
Definition patternless (e : ActionExecutor) : bool :=
  match ex_pattern e with
  | None => true
  | Some _ => false
  end.

(** What the scan does for a given resolved target: run the selected
    executor on the action, or raise. *)
Definition dispatch_for (self : RelationshipExecutor) (a : Action) (t : Selector)
  : list event * outcome pyval :=
  match select_executor (action_executors (protocol (relationship self))) (Some t) with
  | Some executor =>
      ([EvExecute (ex_name executor)],
       ex_execute executor (scope_of (relationship self)) a)
  | None =>
      ([], Raised (NotImplementedError
             ("No action executor found for " ++ action_class_name a
              ++ ", target for " ++ Selector_path t)))
  end.

(** The depth pattern handed to the handler of a wildcard level [k]
    that follows the entries [p]: the land, then the levels so far. *)
Definition depth_pattern (self : Relationship) (p : dict pvalue) (k : string)
  : DynamicSelector :=
  mkSelector (("land", PStr (land_name (land (protocol self))))
                :: without_land p ++ [(k, PWild)])%list.

(** A wildcard level [k] after the entries [p] is served by the generator
    [q] of the first handler whose prefix is absent or equal to the path
    seen so far. *)
Definition served_by (self : Relationship) (p : dict pvalue) (k : string)
    (q : querier_fn) : Prop :=
  exists querier,
    find_query_handler (query_handlers (protocol self)) (seen_path p) = Some querier
    /\ dict_get (queriers querier) k = Some q.

(** The selector a target resolves to: itself, or [to_selector()]. *)
Definition resolved_selector (t : pyany) : option Selector :=
  match as_selector t with
  | Some s => Some s
  | None => to_selector t
  end.

(** The metadata source consulted for a target. *)
Definition source_for (self : Relationship) (t : pyany) (target_ref : Selector)
  : option MetadataSource :=
  match as_resource t with
  | Some r =>
      match get_provider (protocol self) r with
      | Some provider => get_metadata_source provider
      | None => None
      end
  | None => get_metadata_provider (protocol self) target_ref
  end.

(** [Relationship.fetch].  [type_str] renders [type(resource)] inside the
    message and [provider_fetch] is the coroutine [provider.fetch]; both
    belong to avilla.core.resource. *)
Definition fetch (type_str : Resource -> string)
    (provider_fetch : ResourceProvider -> Resource -> rs_scope -> outcome pyval)
    (self : Relationship) (resource : Resource) : outcome pyval :=
  match get_provider (protocol self) resource with
  | None => Raised (ValueError (type_str resource ++ " is not a supported resource."))
  | Some provider => provider_fetch provider resource (scope_of self)
  end.

(** The argument of [meta(op_or_target, maybe_op)] taken as operator. *)
Definition operator_of (op_or_target : pyany) (maybe_op : option pyany) : pyany :=
  match maybe_op with
  | None => op_or_target
  | Some op => op
  end.

End Derived.

(* ================================================================== *)
(** * Which query handler serves a level                              *)
(* ================================================================== *)

Module Lookup.
Import Py Core Props.

(** The test of the handler loop,
    [querier.prefix is None or querier.prefix == past]. *)
Definition prefix_serves (h : QueryHandler) (past : string) : Prop :=
  qh_prefix h = None \/ qh_prefix h = Some past.

(** A handler the loop passes over: it declares a prefix, and the prefix
    is not [past]. *)
Definition prefix_excludes (h : QueryHandler) (past : string) : Prop :=
  exists pre, qh_prefix h = Some pre /\ pre <> past.

(** The matching rule in the words of the design document, for comparison
    with the code: the declared prefix equals the keys seen so far, an
    absent prefix meaning the root level. *)
Definition spec_prefix_matches (h : QueryHandler) (past : string) : bool :=
  match qh_prefix h with
  | None => String.eqb past ""
  | Some pre => String.eqb pre past
  end.

(** A wildcard level [k] below the path [past] that the registered
    handlers do not serve: the loop passes over all of them, or the first
    one it stops at registers no generator for [k]. *)
Definition level_unserved (self : Relationship) (past k : string) : Prop :=
  Forall (fun h => prefix_excludes h past) (query_handlers (protocol self))
  \/ exists before h after,
       query_handlers (protocol self) = (before ++ h :: after)%list
       /\ Forall (fun h' => prefix_excludes h' past) before
       /\ prefix_serves h past
       /\ dict_get (queriers h) k = None.

End Lookup.

Module MoreExamples.
Import Py Core Props Examples Derived.

Definition boom : exn := OtherError "RuntimeError" "boom".
Definition denied : exn := OtherError "PermissionError" "denied".

(** A middleware that cannot be entered. *)
Definition mw_blocked : ActionMiddleware :=
  mkMiddleware "blocked" (Some denied) (fun _ => ExitReturn false).

(** A middleware that swallows whatever passes through its exit. *)
Definition mw_swallow : ActionMiddleware :=
  mkMiddleware "swallow" None (fun _ => ExitReturn true).

(** A middleware whose exit raises. *)
Definition mw_cleanup_fails : ActionMiddleware :=
  mkMiddleware "cleanup" None (fun _ => ExitRaise denied).

Definition rs_with (mws : list ActionMiddleware) (executors : list ActionExecutor)
  : Relationship :=
  mk_rs (mk_protocol [] mws executors []).


(** A land with guild and channel handlers; the channels of a guild are
    named after it, and listing the channels of guild G2 fails. *)
Definition channels_of : querier_fn :=
  fun _ upper _ =>
    match dict_get (pattern upper) "guild" with
    | Some (PStr "G1") =>
        ([mkSelector (dict_set (pattern upper) "channel" (PStr "a"));
          mkSelector (dict_set (pattern upper) "channel" (PStr "b"))], None)
    | Some (PStr "G2") => ([], Some boom)
    | _ => ([], None)
    end.

Definition rs_tree : Relationship :=
  mk_rs (mk_protocol [] [] []
           [mkQueryHandler (Some "guild") [("channel", channels_of)];
            guild_handler]).

(** The same handlers behind a prefix-less handler that knows no level. *)
Definition rs_shadowed : Relationship :=
  mk_rs (mk_protocol [] [] []
           [mkQueryHandler None []; guild_handler]).

Definition friend : pyobject :=
  mkObject "friend(1)" true None
    (Some (mkSelector [("land", PStr "qq"); ("friend", PStr "1")])) None.

Definition nothing : pyobject := mkObject "" false None None None.

Definition avatar_of_ctx : Model := mkModel "Avatar" (fun _ => Some friend).

(** A picture that resolves to a selector; no provider knows it. *)
Definition picture : Resource := mkResource "picture".
Definition picture_obj : pyobject :=
  mkObject "Picture(1)" true None
    (Some (mkSelector [("land", PStr "qq"); ("picture", PStr "1")]))
    (Some picture).

Definition rs_meta : Relationship :=
  mk_rs (mkProtocol (mkAvilla []) (mkLand "qq") [] [] []
           (fun _ => Some (mkSource "profile")) (fun _ => None)).

End MoreExamples.

(* ================================================================== *)
(** * Display strings of the adapter elements                         *)
(* ================================================================== *)

Import Py Onebot Core Props.

Lemma str_or_empty (d : string) : str_or (Some "") d = str_or None d.
Proof. reflexivity. Qed.

Lemma str_or_absent (d : string) : str_or None d = d.
Proof. reflexivity. Qed.

(** C1.  [Share.asDisplay] evaluated on [Share(url="u", title="t")]: the
    result carries twelve blanks in front of every field, and so differs
    from the format of the element table,
    "[$onebot::Share:url=u,title=t,content=null,image=null]"; the same
    holds for every Share element, and the literals of
    [Location.asDisplay] and [CustomMusicShare.asDisplay] carry the same
    blanks. *)
Theorem Share_asDisplay_keeps_indentation :
  Share_asDisplay (mkShare "u" "t" None None)
  = "[$onebot::Share:            url=u,            title=t,            content=null,            image=null]"
  /\ (forall u t c i,
        Share_asDisplay (mkShare u t c i) <> Share_display_spec u t c i)
  /\ CustomMusicShare_asDisplay (mkCustomMusicShare "u" "a" "t" None None)
     = "[$onebot::CustomMusicShare:            url=u,            audio=a,            title=t,            content=null,            image=null]"
  /\ (forall (pyfloat : Type) (str_float : pyfloat -> string) lat lon,
        Location_asDisplay str_float (mkLocation lat lon None None)
        = "[$onebot::Location:            lat=" ++ str_float lat
          ++ ",            lon=" ++ str_float lon
          ++ ",            title=null,            content=null]").
Proof.
  split; [reflexivity|]. split; [|split; [reflexivity|]].
  - intros u t c i H. unfold Share_asDisplay, Share_display_spec in H.
    cbn in H. destruct u; discriminate H.
  - intros pyfloat str_float lat lon. reflexivity.
Qed.

(** C10.  For every optional string field of Poke, Share, Location and
    CustomMusicShare, the empty string is displayed as the word null, and
    the display string is the one of the element with the field absent. *)
Theorem empty_optional_field_displays_null :
  (forall t i,
      Poke_asDisplay (mkPoke t i (Some ""))
      = "[$onebot::Poke:type=" ++ t ++ ",id=" ++ i ++ ",name=null]"
      /\ Poke_asDisplay (mkPoke t i (Some "")) = Poke_asDisplay (mkPoke t i None))
  /\ (forall u t c i,
        Share_asDisplay (mkShare u t (Some "") i) = Share_asDisplay (mkShare u t None i)
        /\ Share_asDisplay (mkShare u t c (Some "")) = Share_asDisplay (mkShare u t c None)
        /\ Share_asDisplay (mkShare u t (Some "") (Some ""))
           = "[$onebot::Share:            url=" ++ u ++ ",            title=" ++ t
             ++ ",            content=null,            image=null]")
  /\ (forall (pyfloat : Type) (str_float : pyfloat -> string) lat lon t c,
        Location_asDisplay str_float (mkLocation lat lon (Some "") c)
        = Location_asDisplay str_float (mkLocation lat lon None c)
        /\ Location_asDisplay str_float (mkLocation lat lon t (Some ""))
           = Location_asDisplay str_float (mkLocation lat lon t None)
        /\ Location_asDisplay str_float (mkLocation lat lon (Some "") (Some ""))
           = "[$onebot::Location:            lat=" ++ str_float lat
             ++ ",            lon=" ++ str_float lon
             ++ ",            title=null,            content=null]")
  /\ (forall u a t c i,
        CustomMusicShare_asDisplay (mkCustomMusicShare u a t (Some "") i)
        = CustomMusicShare_asDisplay (mkCustomMusicShare u a t None i)
        /\ CustomMusicShare_asDisplay (mkCustomMusicShare u a t c (Some ""))
           = CustomMusicShare_asDisplay (mkCustomMusicShare u a t c None)
        /\ CustomMusicShare_asDisplay (mkCustomMusicShare u a t (Some "") (Some ""))
           = "[$onebot::CustomMusicShare:            url=" ++ u
             ++ ",            audio=" ++ a ++ ",            title=" ++ t
             ++ ",            content=null,            image=null]").
Proof.
  (* every equation holds by evaluating [str_or] and the literals *)
  split; [|split; [|split]]; intros; repeat split.
Qed.

(* ================================================================== *)
(** * RelationshipExecutor: middleware chain                          *)
(* ================================================================== *)

Import Examples.

Lemma enter_contexts_all (ms stack : list ActionMiddleware) :
  Forall enters ms ->
  enter_contexts ms stack = (enter_events ms, (rev ms ++ stack)%list, None).
Proof.
  revert stack. induction ms as [|m ms IH]; intros stack H; cbn.
  - reflexivity.
  - inversion H as [|? ? Hm Hms]; subst.
    unfold enters in Hm. rewrite Hm, (IH (m :: stack) Hms).
    unfold enter_events; cbn. now rewrite <- app_assoc.
Qed.

Lemma exit_callbacks_events stack exc suppressed pending :
  fst (exit_callbacks stack exc suppressed pending) = exit_events stack.
Proof.
  revert exc suppressed pending.
  induction stack as [|m stack IH]; intros exc suppressed pending; cbn.
  - reflexivity.
  - destruct (mw_exit m exc) as [[|]|e];
      match goal with
      | |- context [exit_callbacks stack ?a ?b ?c] =>
          specialize (IH a b c); destruct (exit_callbacks stack a b c)
      end; cbn in *; now rewrite IH.
Qed.


Lemma async_with_exit_events stack body :
  fst (async_with_exit stack body) = exit_events stack.
Proof.
  unfold async_with_exit.
  match goal with
  | |- context [exit_callbacks stack ?a ?b ?c] =>
      pose proof (exit_callbacks_events stack a b c) as H;
      destruct (exit_callbacks stack a b c) as [tr [[exc s] p]]
  end.
  exact H.
Qed.


(** The events of one awaited execution whose middlewares all enter. *)
Lemma await_impl_events (self : RelationshipExecutor) :
  Forall enters (middlewares self) ->
  fst (await_impl self)
  = (enter_events (rev (middlewares self))
       ++ fst (dispatch self)
       ++ exit_events (middlewares self))%list.
Proof.
  intros H. unfold await_impl.
  rewrite enter_contexts_all by (apply Forall_rev; exact H).
  rewrite rev_involutive, app_nil_r.
  destruct (dispatch self) as [tr body].
  pose proof (async_with_exit_events (middlewares self) body) as E.
  destruct (async_with_exit (middlewares self) body) as [tr' r].
  cbn in *. now rewrite E.
Qed.

(** Once every middleware has entered, the outcome of the body goes
    through the exit stack of all of them. *)
Lemma await_impl_unwinds (self : RelationshipExecutor) :
  Forall enters (middlewares self) ->
  snd (await_impl self)
  = snd (async_with_exit (middlewares self) (snd (dispatch self))).
Proof.
  intros H. unfold await_impl.
  rewrite enter_contexts_all by (apply Forall_rev; exact H).
  rewrite rev_involutive, app_nil_r.
  destruct (dispatch self) as [tr body]. cbn [snd].
  now destruct (async_with_exit (middlewares self) body) as [tr' r].
Qed.


(** C2, as stated, fails: with middlewares [A, B] the scope of B is
    entered first and left last. *)
Lemma first_declared_middleware_is_not_outermost :
  middlewares (execute (exec rs_AB) send) = [mwA; mwB]
  /\ fst (await_impl (execute (exec rs_AB) send))
     = [EvEnter "B"; EvEnter "A"; EvExecute "default"; EvExit "A"; EvExit "B"]
  /\ fst (await_impl (execute (exec rs_AB) send))
     <> [EvEnter "A"; EvEnter "B"; EvExecute "default"; EvExit "B"; EvExit "A"].
Proof.
  split; [reflexivity|]. split; [reflexivity|]. cbv. discriminate.
Qed.

(** C2, amended.  When every middleware of the list enters, awaiting the
    executor enters the scopes from the last-declared middleware to the
    first-declared one, runs the matched action executor, and leaves the
    scopes in the reverse order of entry, first-declared first; this holds
    whatever the action executor returns or raises.  For [A, B]: enter B,
    enter A, execute, exit A, exit B. *)
Theorem await_middleware_nesting (self : RelationshipExecutor)
    (a : Action) (executor : ActionExecutor) :
  Forall enters (middlewares self) ->
  action self = Some a ->
  select_executor (action_executors (protocol (relationship self))) (_target self)
  = Some executor ->
  fst (await_impl self)
  = (enter_events (rev (middlewares self))
       ++ [EvExecute (ex_name executor)]
       ++ exit_events (middlewares self))%list.
Proof.
  intros H Ha Hsel. rewrite (await_impl_events self H).
  unfold dispatch. now rewrite Ha, Hsel.
Qed.

Lemma await_middleware_nesting_witness :
  Forall enters [mwA; mwB]
  /\ snd (await_impl (execute (exec rs_AB_failing) send))
     = Raised (OtherError "RuntimeError" "boom")
  /\ fst (await_impl (execute (exec rs_AB_failing) send))
     = [EvEnter "B"; EvEnter "A"; EvExecute "failing"; EvExit "A"; EvExit "B"].
Proof.
  split; [repeat constructor|]. split; [reflexivity|].
  apply (await_middleware_nesting (execute (exec rs_AB_failing) send) send ex_failing).
  - repeat constructor.
  - reflexivity.
  - reflexivity.
Defined.

(** C3, as stated, fails: the protocol-level middleware comes first in the
    list the executor computes, the framework-level one second. *)
Lemma effective_middlewares_not_framework_first :
  map mw_name (middlewares (RelationshipExecutor_init rs_PG))
  = ["protocol-level"; "framework-level"]
  /\ middlewares (RelationshipExecutor_init rs_PG)
     <> (app_action_middlewares (avilla (protocol rs_PG))
           ++ action_middlewares (protocol rs_PG))%list.
Proof.
  split; [reflexivity|].
  intros H. apply (f_equal (map mw_name)) in H. discriminate H.
Qed.

(** C3, amended.  The middleware list computed at construction is the
    protocol's [action_middlewares] followed by the owning application's
    global action-middleware list: protocol-level first, framework-level
    second. *)
Theorem effective_middlewares_protocol_first (rs : Relationship) :
  middlewares (RelationshipExecutor_init rs)
  = (action_middlewares (protocol rs)
       ++ app_action_middlewares (avilla (protocol rs)))%list.
Proof. reflexivity. Qed.

(* ================================================================== *)
(** * RelationshipExecutor: dispatch to an action executor            *)
(* ================================================================== *)

Lemma select_executor_cons e rest target :
  select_executor (e :: rest) target
  = if eligible target e then Some e else select_executor rest target.
Proof.
  cbn. unfold eligible.
  destruct (ex_pattern e) as [p|]; [|reflexivity].
  destruct target as [t|]; reflexivity.
Qed.


Lemma select_executor_first executors target e :
  select_executor executors target = Some e
  <-> exists before after,
        executors = (before ++ e :: after)%list
        /\ Forall (fun x => eligible target x = false) before
        /\ eligible target e = true.
Proof.
  induction executors as [|x rest IH].
  - split; [discriminate|]. intros (before & after & H & _).
    destruct before; discriminate H.
  - rewrite select_executor_cons. destruct (eligible target x) eqn:E.
    + split.
      * intros H. injection H as <-. exists [], rest. repeat split; auto.
      * intros (before & after & H & Hb & He).
        destruct before as [|y before]; cbn in H; injection H as -> ->.
        -- reflexivity.
        -- inversion Hb; congruence.
    + rewrite IH. split.
      * intros (before & after & -> & Hb & He).
        exists (x :: before), after. repeat split; auto.
      * intros (before & after & H & Hb & He).
        destruct before as [|y before]; cbn in H; injection H as -> ->.
        -- congruence.
        -- exists before, after. inversion Hb; subst. repeat split; auto.
Qed.

Lemma Selector_match_refl_concrete (x y z : string) :
  Selector_match
    (mkSelector [("land", PStr x); ("a", PStr y); ("b", PStr z)])
    (mkSelector [("land", PStr x); ("a", PStr y); ("b", PStr z)]) = true.
Proof. cbn. now rewrite !String.eqb_refl. Qed.

(** C5.  The scan of [action_executors] selects an executor exactly when
    it is the first one, in declaration order, whose pattern is absent or
    matches the resolved target, and the dispatch runs the executor the
    scan selects, on the stored action, with its outcome as outcome.  With
    executors registered as [full pattern for land.a.b, prefix pattern for
    land.a, patternless default] and a resolved target land.a.b, the
    full-pattern executor, and no other, is run. *)
Theorem executor_scan_first_match :
  (forall executors target e,
      select_executor executors target = Some e
      <-> exists before after,
            executors = (before ++ e :: after)%list
            /\ Forall (fun x => eligible target x = false) before
            /\ eligible target e = true)
  /\ (forall (self : RelationshipExecutor) (a : Action) (e : ActionExecutor),
        action self = Some a ->
        select_executor (action_executors (protocol (relationship self)))
          (_target self) = Some e ->
        dispatch self
        = ([EvExecute (ex_name e)], ex_execute e (scope_of (relationship self)) a))
  /\ (forall (self : RelationshipExecutor) (a : Action)
             (full prefix default : ActionExecutor) (x y z : string),
        let target := mkSelector [("land", PStr x); ("a", PStr y); ("b", PStr z)] in
        action_executors (protocol (relationship self)) = [full; prefix; default] ->
        ex_pattern full = Some target ->
        ex_pattern prefix = Some (mkSelector [("land", PStr x); ("a", PStr y)]) ->
        ex_pattern default = None ->
        action self = Some a ->
        _target self = Some target ->
        Selector_path target = "land.a.b"
        /\ select_executor [full; prefix; default] (Some target) = Some full
        /\ dispatch self
           = ([EvExecute (ex_name full)],
              ex_execute full (scope_of (relationship self)) a)).
Proof.
  split; [exact select_executor_first|]. split.
  - intros self a e Ha Hsel. unfold dispatch. now rewrite Ha, Hsel.
  - intros self a full prefix default x y z target Hex Hf Hp Hd Ha Ht.
    assert (Hsel : select_executor [full; prefix; default] (Some target) = Some full).
    { cbn [select_executor]. rewrite Hf. unfold target.
      now rewrite Selector_match_refl_concrete. }
    split; [reflexivity|]. split; [exact Hsel|].
    unfold dispatch. now rewrite Ha, Hex, Ht, Hsel.
Qed.

Lemma executor_scan_first_match_witness :
  fst (await_impl (execute (exec rs_ordered) send)) = [EvExecute "full"]
  /\ dispatch (execute (exec rs_ordered) send)
     = ([EvExecute "full"], Returned (PyVal "full"))
  /\ dispatch (mkRelationshipExecutor rs_ordered (Some send) [] (Some sel_a))
     = ([EvExecute "prefix"], Returned (PyVal "prefix"))
  /\ dispatch (mkRelationshipExecutor rs_ordered (Some send) [] None)
     = ([EvExecute "default"], Returned (PyVal "default")).
Proof.
  destruct executor_scan_first_match as (_ & Hrun & Hexample).
  split; [reflexivity|]. split; [|split].
  - apply (Hexample (execute (exec rs_ordered) send) send
             ex_full ex_prefix ex_default "qq" "1" "2"); reflexivity.
  - apply (Hrun (mkRelationshipExecutor rs_ordered (Some send) [] (Some sel_a))
             send ex_prefix); reflexivity.
  - apply (Hrun (mkRelationshipExecutor rs_ordered (Some send) [] None)
             send ex_default); reflexivity.
Defined.









(* ================================================================== *)
(** * Relationship.check                                              *)
(* ================================================================== *)

(** C4.  [Relationship.check] evaluated without a target: the method has
    no body, so for every relationship it returns None; it raises for no
    relationship, and it never returns false. *)
Theorem check_without_target_never_raises (rs : Relationship) (strict : bool) :
  check rs None strict = Returned None
  /\ (forall e, check rs None strict <> Raised e)
  /\ check rs None strict <> Returned (Some false).
Proof. repeat split; discriminate. Qed.

(* ================================================================== *)
(** * Relationship.query                                              *)
(* ================================================================== *)

Section QueryPipeline.

Variable self : Relationship.

Lemma top_snoc {A} (l : list A) (x : A) : top (l ++ [x]) = Some x.
Proof. unfold top. now rewrite rev_unit. Qed.

Lemma dict_set_fresh {V} (d : dict V) (k : string) (v : V) :
  ~ In k (dict_keys d) -> dict_set d k v = (d ++ [(k, v)])%list.
Proof.
  induction d as [|[k' v'] d IH]; cbn; intros H.
  - reflexivity.
  - destruct (String.eqb_spec k' k) as [->|_].
    + exfalso. apply H. now left.
    + rewrite IH; [reflexivity|]. intros Hin. apply H. now right.
Qed.

Lemma dict_set_not_nil {V} (d : dict V) (k : string) (v : V) : dict_set d k v <> [].
Proof.
  destruct d as [|[k' v'] d]; cbn; [discriminate|].
  destruct (String.eqb k' k); discriminate.
Qed.

Lemma NoDup_keys_without_land (p : dict pvalue) :
  NoDup (dict_keys p) -> NoDup (dict_keys (without_land p)).
Proof.
  induction p as [|[k v] p IH]; cbn; intros H; [constructor|].
  inversion H as [|? ? Hk Hp]; subst.
  destruct (negb (String.eqb k "land")); cbn; [|now apply IH].
  constructor; [|now apply IH].
  intros Hin. apply Hk. unfold dict_keys, without_land in *.
  apply in_map_iff in Hin as ([k' v'] & <- & Hf).
  apply filter_In in Hf as [Hf _]. apply in_map_iff. now exists (k', v').
Qed.

Lemma without_land_app (p q : dict pvalue) :
  without_land (p ++ q)%list = (without_land p ++ without_land q)%list.
Proof. apply filter_app. Qed.

(** The dictionary [past] collects the entries other than ["land"]. *)
Lemma fold_past (p past : dict pvalue) (stack : list stream) :
  NoDup (dict_keys past ++ dict_keys (without_land p))%list ->
  fst (fold_left (query_step self) p (past, stack)) = (past ++ without_land p)%list.
Proof.
  revert past stack. induction p as [|[k v] p IH]; intros past stack H; cbn.
  - now rewrite app_nil_r.
  - cbn in H. destruct (String.eqb k "land") eqn:E; cbn in H |- *.
    + now apply IH.
    + assert (Hfresh : ~ In k (dict_keys past)).
      { apply NoDup_remove_2 in H. intros Hin. apply H, in_or_app. now left. }
      rewrite (dict_set_fresh past k v Hfresh).
      assert (Hnd : NoDup (dict_keys (past ++ [(k, v)])%list ++ dict_keys (without_land p))%list).
      { unfold dict_keys in *. rewrite map_app, <- app_assoc. exact H. }
      destruct v; rewrite IH by exact Hnd; now rewrite <- app_assoc.
Qed.

Lemma run_past (p : dict pvalue) :
  NoDup (dict_keys p) -> fst (query_state self p) = without_land p.
Proof.
  intros H. unfold query_state. rewrite fold_past; [reflexivity|].
  cbn. now apply NoDup_keys_without_land.
Qed.

(** The stack never shrinks. *)
Lemma fold_stack_grows (p : dict pvalue) (st : dict pvalue * list stream) :
  top (snd st) <> None ->
  top (snd (fold_left (query_step self) p st)) <> None.
Proof.
  revert st. induction p as [|[k v] p IH]; intros [past stack] H; cbn; [exact H|].
  destruct (String.eqb k "land"); [now apply IH|].
  destruct v; apply IH; cbn; rewrite top_snoc; discriminate.
Qed.

Lemma fold_stack_opened (p : dict pvalue) (st : dict pvalue * list stream) :
  without_land p <> [] ->
  top (snd (fold_left (query_step self) p st)) <> None.
Proof.
  revert st. induction p as [|[k v] p IH]; intros [past stack] H; cbn in *.
  - congruence.
  - destruct (String.eqb k "land"); cbn in H; [now apply IH|].
    destruct v; apply fold_stack_grows; cbn; rewrite top_snoc; discriminate.
Qed.

(** What [query] yields is the last generator pushed on the stack. *)
Lemma query_top (p : dict pvalue) (s : stream) :
  top (snd (query_state self p)) = Some s -> query self (mkSelector p) = s.
Proof.
  intros H. unfold query, Selector_empty. cbn [pattern].
  destruct p as [|kv p]; [discriminate H|].
  fold (query_state self (kv :: p)). destruct (query_state self (kv :: p)) as [past stack].
  cbn in H. now rewrite H.
Qed.

(** The last entry of the pattern decides the last stage. *)
Lemma query_last (p : dict pvalue) (k : string) (v : pvalue) :
  k <> "land" ->
  query self (mkSelector (p ++ [(k, v)])%list)
  = match v with
    | PStr s => generate_with_specified k s (top (snd (query_state self p)))
    | PWild =>
        generate_from_upper self
          (mkSelector (dict_set (fst (query_state self p)) k PWild)) (top (snd (query_state self p)))
    end.
Proof.
  intros Hk. apply query_top. unfold query_state. rewrite fold_left_app. cbn [fold_left].
  fold (query_state self p). destruct (query_state self p) as [past stack]. cbn [query_step fst snd].
  apply String.eqb_neq in Hk. rewrite Hk.
  destruct v; cbn [snd]; apply top_snoc.
Qed.

(** [generate_from_upper] on a depth pattern whose last key is [k]. *)
Lemma generate_from_upper_last (depth : DynamicSelector) (upper : option stream)
    (ks : list string) (k : string) :
  dict_keys (pattern depth) = (ks ++ [k])%list ->
  generate_from_upper self depth upper
  = let past := join "." ks in
    let depth' :=
      if negb (String.eqb (hd k ks) "land")
      then mkSelector (with_land (land_name (land (protocol self))) (pattern depth))
      else depth in
    match find_query_handler (query_handlers (protocol self)) past with
    | None => ([], Some (NotImplementedError ("No query handler found for " ++ past)))
    | Some querier =>
        match dict_get (queriers querier) k with
        | None =>
            ([], Some (NotImplementedError
                   ("No querier found for " ++ past ++ ", " ++ k ++ " unimplemented")))
        | Some q =>
            match upper with
            | None =>
                q (scope_of self) (Selector_land (land (protocol self)))
                  (Selector_match depth')
            | Some (values, err) =>
                expand (fun upper_value =>
                          q (scope_of self) upper_value (Selector_match depth'))
                  values err
            end
        end
    end.
Proof.
  intros E. unfold generate_from_upper. rewrite E.
  rewrite last_last, removelast_last.
  destruct ks as [|k0 ks]; reflexivity.
Qed.

End QueryPipeline.

Lemma expand_nil (f : Selector -> stream) (err : option exn) :
  expand f [] err = ([], err).
Proof. reflexivity. Qed.

(** A stage fed by a generator that raises NotImplementedError before its
    first value does the same. *)
Lemma generate_from_upper_raises self depth upper :
  pattern depth <> [] ->
  raises_at_once upper ->
  raises_at_once (Some (generate_from_upper self depth upper)).
Proof.
  intros Hne [msg ->].
  assert (E : dict_keys (pattern depth)
              = (removelast (dict_keys (pattern depth))
                   ++ [last (dict_keys (pattern depth)) ""])%list).
  { apply app_removelast_last. unfold dict_keys.
    destruct (pattern depth); [congruence | discriminate]. }
  rewrite (generate_from_upper_last self depth _ _ _ E). cbv zeta.
  destruct (find_query_handler _ _) as [querier|]; [|eexists; reflexivity].
  destruct (dict_get _ _) as [q|]; [|eexists; reflexivity].
  rewrite expand_nil. eexists; reflexivity.
Qed.

Lemma query_step_raises self past stack kv :
  raises_at_once (top stack) ->
  raises_at_once (top (snd (query_step self (past, stack) kv))).
Proof.
  intros H. destruct kv as [k v]. cbn.
  destruct (String.eqb k "land"); [exact H|].
  destruct v as [s|]; cbn [snd]; rewrite top_snoc.
  - destruct H as [msg ->]. exists msg. reflexivity.
  - apply generate_from_upper_raises; [|exact H].
    cbn. apply dict_set_not_nil.
Qed.

Lemma fold_raises self p st :
  raises_at_once (top (snd st)) ->
  raises_at_once (top (snd (fold_left (query_step self) p st))).
Proof.
  revert st. induction p as [|kv p IH]; intros [past stack] H; [exact H|].
  cbn [fold_left]. apply IH.
  destruct (query_step self (past, stack) kv) as [past' stack'] eqn:E.
  pose proof (query_step_raises self past stack kv H) as R.
  now rewrite E in R.
Qed.

(** The depth pattern of the stage opened by the last entry [(k, _)]. *)
Lemma last_stage_keys self (p : dict pvalue) (k : string) (v : pvalue) :
  NoDup (dict_keys (p ++ [(k, v)])%list) ->
  k <> "land" ->
  dict_keys (dict_set (fst (query_state self p)) k v)
  = (dict_keys (without_land p) ++ [k])%list.
Proof.
  intros Hnd Hk.
  assert (Hp : NoDup (dict_keys p)).
  { unfold dict_keys in *. rewrite map_app in Hnd.
    now apply NoDup_app_remove_r in Hnd. }
  rewrite (run_past self p Hp).
  rewrite dict_set_fresh.
  - unfold dict_keys. now rewrite map_app.
  - intros Hin. unfold dict_keys in *. rewrite map_app in Hnd. cbn in Hnd.
    apply NoDup_remove_2 in Hnd. rewrite app_nil_r in Hnd. apply Hnd.
    unfold without_land in Hin. apply in_map_iff in Hin as ([k' v'] & <- & Hf).
    apply filter_In in Hf as [Hf _]. apply in_map_iff. now exists (k', v').
Qed.

(** The last stage of a pattern that ends with a wildcard level. *)
Lemma query_wildcard_last self (p : dict pvalue) (k : string) :
  NoDup (dict_keys (p ++ [(k, PWild)])%list) ->
  k <> "land" ->
  query self (mkSelector (p ++ [(k, PWild)])%list)
  = let past := seen_path p in
    match find_query_handler (query_handlers (protocol self)) past with
    | None => ([], Some (NotImplementedError ("No query handler found for " ++ past)))
    | Some querier =>
        match dict_get (queriers querier) k with
        | None =>
            ([], Some (NotImplementedError
                   ("No querier found for " ++ past ++ ", " ++ k ++ " unimplemented")))
        | Some q =>
            generate_from_upper self
              (mkSelector (dict_set (fst (query_state self p)) k PWild))
              (top (snd (query_state self p)))
        end
    end.
Proof.
  intros Hnd Hk. rewrite (query_last self p k PWild Hk).
  pose proof (last_stage_keys self p k PWild Hnd Hk) as E.
  rewrite (generate_from_upper_last self
             (mkSelector (dict_set (fst (query_state self p)) k PWild)) _ _ _ E).
  cbv zeta. fold (seen_path p).
  destruct (find_query_handler _ _) as [querier|]; [|reflexivity].
  destruct (dict_get _ _) as [q|]; reflexivity.
Qed.

Lemma state_last_top self (p : dict pvalue) (k : string) (v : pvalue) :
  k <> "land" ->
  top (snd (query_state self (p ++ [(k, v)])%list))
  = Some (query self (mkSelector (p ++ [(k, v)])%list)).
Proof.
  intros Hk.
  destruct (top (snd (query_state self (p ++ [(k, v)])%list))) as [s|] eqn:E.
  - now rewrite (query_top self _ s E).
  - exfalso. revert E. apply fold_stack_opened.
    rewrite without_land_app. cbn.
    apply String.eqb_neq in Hk. rewrite Hk. cbn.
    intros H. symmetry in H. now apply app_cons_not_nil in H.
Qed.

Lemma fold_only_land self (p : dict pvalue) (st : dict pvalue * list stream) :
  without_land p = [] -> fold_left (query_step self) p st = st.
Proof.
  revert st. induction p as [|[k v] p IH]; intros [past stack] H; [reflexivity|].
  cbn in *. destruct (String.eqb k "land"); cbn in H; [now apply IH | discriminate].
Qed.



Lemma find_query_handler_none (handlers : list QueryHandler) (past : string) :
  find_query_handler handlers past = None
  <-> Forall (fun h => Lookup.prefix_excludes h past) handlers.
Proof.
  unfold Lookup.prefix_excludes.
  induction handlers as [|h rest IH]; cbn.
  - split; [constructor | reflexivity].
  - destruct (qh_prefix h) as [pre|] eqn:E.
    + destruct (String.eqb_spec pre past) as [->|Hne].
      * split; [discriminate|]. intros H. inversion H as [|? ? (q & Hq & Hn) _]; subst.
        congruence.
      * rewrite IH. split.
        -- intros H. constructor; [now exists pre | exact H].
        -- intros H. now inversion H.
    + split; [discriminate|]. intros H.
      inversion H as [|? ? (q & Hq & _) _]; subst. congruence.
Qed.

Lemma find_query_handler_first (before after : list QueryHandler)
    (h : QueryHandler) (past : string) :
  Forall (fun h' => Lookup.prefix_excludes h' past) before ->
  Lookup.prefix_serves h past ->
  find_query_handler (before ++ h :: after) past = Some h.
Proof.
  intros Hb Hs. induction before as [|x before IH]; cbn.
  - destruct Hs as [->| ->]; [reflexivity | now rewrite String.eqb_refl].
  - inversion Hb as [|? ? (pre & Hp & Hn) Hb']; subst. rewrite Hp.
    apply String.eqb_neq in Hn. rewrite Hn. now apply IH.
Qed.

Lemma level_unserved_lookup_fails (self : Relationship) (past k : string) :
  Lookup.level_unserved self past k -> stage_lookup_fails self past k.
Proof.
  intros [H|(before & h & after & Hl & Hb & Hs & Hg)].
  - left. now apply find_query_handler_none.
  - right. exists h. split; [|exact Hg].
    rewrite Hl. now apply find_query_handler_first.
Qed.

(** C8, as stated, fails.  With the single root-level handler of
    [rs_guilds] (no prefix) and the pattern guild=G1, channel=*, the keys
    seen so far are "guild" and no registered prefix equals them, an absent
    prefix meaning the root level; the claim gives NoQueryHandler.  The
    code takes the handler without prefix for this level too, and raises
    the error of the missing generator. *)
Lemma prefixless_handler_is_asked_below_the_root :
  Forall (fun h => Lookup.spec_prefix_matches h "guild" = false)
    (query_handlers (protocol rs_guilds))
  /\ query rs_guilds (mkSelector [("guild", PStr "G1"); ("channel", PWild)])
     = ([], Some (NotImplementedError
                    "No querier found for guild, channel unimplemented"))
  /\ query rs_guilds (mkSelector [("guild", PStr "G1"); ("channel", PWild)])
     <> ([], Some (NotImplementedError "No query handler found for guild")).
Proof.
  split; [repeat constructor|]. split; [reflexivity|]. discriminate.
Qed.

(** C8, amended.  [query] on a selector without keys raises ValueError
    ("Selector is empty.", the InvalidArgument kind) before any value.  A
    wildcard level raises NotImplementedError before any value
    - with "No query handler found for ..." (NoQueryHandler) when every
      registered query handler declares a prefix and none of the prefixes
      equals the dot-joined keys seen so far; a handler without prefix
      serves every level, not only the root;
    - with "No querier found for ..." (NoQuerierForLevel) when the first
      registered handler whose prefix is absent or equal to the keys seen
      so far registers no generator for the level.
    The messages are exact when the level is the last one of the pattern;
    at any other position the query still ends with a NotImplementedError
    before its first value. *)
Theorem query_failures :
  (forall (self : Relationship) (sel : Selector),
      Selector_empty sel = true ->
      query self sel = ([], Some (ValueError "Selector is empty.")))
  /\ (forall (self : Relationship) (p : dict pvalue) (k : string),
        NoDup (dict_keys (p ++ [(k, PWild)])%list) ->
        k <> "land" ->
        Forall (fun h => exists pre, qh_prefix h = Some pre /\ pre <> seen_path p)
          (query_handlers (protocol self)) ->
        query self (mkSelector (p ++ [(k, PWild)])%list)
        = ([], Some (NotImplementedError
                       ("No query handler found for " ++ seen_path p))))
  /\ (forall (self : Relationship) (p : dict pvalue) (k : string)
             (before after : list QueryHandler) (h : QueryHandler),
        NoDup (dict_keys (p ++ [(k, PWild)])%list) ->
        k <> "land" ->
        query_handlers (protocol self) = (before ++ h :: after)%list ->
        Forall (fun h' => exists pre, qh_prefix h' = Some pre /\ pre <> seen_path p)
          before ->
        qh_prefix h = None \/ qh_prefix h = Some (seen_path p) ->
        dict_get (queriers h) k = None ->
        query self (mkSelector (p ++ [(k, PWild)])%list)
        = ([], Some (NotImplementedError
                       ("No querier found for " ++ seen_path p ++ ", " ++ k
                        ++ " unimplemented"))))
  /\ (forall (self : Relationship) (p rest : dict pvalue) (k : string),
        NoDup (dict_keys (p ++ (k, PWild) :: rest)%list) ->
        k <> "land" ->
        Lookup.level_unserved self (seen_path p) k ->
        exists msg,
          query self (mkSelector (p ++ (k, PWild) :: rest)%list)
          = ([], Some (NotImplementedError msg))).
Proof.
  split; [|split; [|split]].
  - intros self sel H. unfold query. now rewrite H.
  - intros self p k Hnd Hk Hall.
    rewrite (query_wildcard_last self p k Hnd Hk). cbv zeta.
    apply find_query_handler_none in Hall. now rewrite Hall.
  - intros self p k before after h Hnd Hk Hl Hb Hs Hget.
    rewrite (query_wildcard_last self p k Hnd Hk). cbv zeta.
    rewrite Hl, (find_query_handler_first before after h (seen_path p) Hb Hs).
    now rewrite Hget.
  - intros self p rest k Hnd Hk Hun.
    apply level_unserved_lookup_fails in Hun as Hfail.
    assert (Hnd' : NoDup (dict_keys (p ++ [(k, PWild)])%list)).
    { unfold dict_keys in *.
      replace (p ++ (k, PWild) :: rest)%list
        with ((p ++ [(k, PWild)]) ++ rest)%list in Hnd
        by now rewrite <- app_assoc.
      rewrite map_app in Hnd. now apply NoDup_app_remove_r in Hnd. }
    assert (Hstage : raises_at_once
                       (top (snd (query_state self (p ++ [(k, PWild)])%list)))).
    { rewrite (state_last_top self p k PWild Hk).
      rewrite (query_wildcard_last self p k Hnd' Hk). cbv zeta.
      destruct Hfail as [Hf|(querier & Hf & Hg)].
      - rewrite Hf. eexists; reflexivity.
      - rewrite Hf, Hg. eexists; reflexivity. }
    pose proof (fold_raises self rest
                  (query_state self (p ++ [(k, PWild)])%list) Hstage) as [msg Hr].
    exists msg. apply query_top.
    unfold query_state in *.
    replace (p ++ (k, PWild) :: rest)%list
      with ((p ++ [(k, PWild)]) ++ rest)%list by now rewrite <- app_assoc.
    rewrite fold_left_app. exact Hr.
Qed.

Lemma query_failures_witness :
  query rs_guilds (mkSelector []) = ([], Some (ValueError "Selector is empty."))
  /\ query rs_channels_only (mkSelector [("land", PStr "qq"); ("guild", PWild)])
     = ([], Some (NotImplementedError "No query handler found for "))
  /\ query rs_guilds (mkSelector [("guild", PStr "G1"); ("channel", PWild)])
     = ([], Some (NotImplementedError
                    "No querier found for guild, channel unimplemented"))
  /\ exists msg,
       query rs_channels_only
         (mkSelector [("guild", PWild); ("channel", PWild)])
       = ([], Some (NotImplementedError msg)).
Proof.
  destruct query_failures as (Hempty & Hhandler & Hquerier & Hany).
  split; [|split; [|split]].
  - apply Hempty. reflexivity.
  - apply (Hhandler rs_channels_only [("land", PStr "qq")] "guild").
    + cbn. repeat constructor; cbn; intuition discriminate.
    + discriminate.
    + repeat constructor. exists "guild". split; [reflexivity | discriminate].
  - apply (Hquerier rs_guilds [("guild", PStr "G1")] "channel" [] [] guild_handler).
    + cbn. repeat constructor; cbn; intuition discriminate.
    + discriminate.
    + reflexivity.
    + constructor.
    + left. reflexivity.
    + reflexivity.
  - apply (Hany rs_channels_only [] [("channel", PWild)] "guild").
    + cbn. repeat constructor; cbn; intuition discriminate.
    + discriminate.
    + left. repeat constructor. exists "guild". split; [reflexivity | discriminate].
Defined.

(* ================================================================== *)
(** * Relationship.meta                                               *)
(* ================================================================== *)

(** C9.  [meta(operator)] without an explicit target, for an operator whose
    model has no default target, raises ValueError (the MissingTarget
    kind: "requires a categorical target"); neither a fetch nor a modify
    is dispatched to any metadata source. *)
Theorem meta_missing_target (self : Relationship) (op : pyany)
    (modify : option MetadataModifies) (model : Model) :
  classify op = Some (modify, model) ->
  get_default_target model (scope_of self) = None ->
  meta self op None
  = MetaRaised (ValueError
      (model_str model
       ++ "'s modify is not a supported metadata for rs.meta, which requires a categorical target."))
  /\ (forall source target m, meta self op None <> MetaFetch source target m)
  /\ (forall source target m, meta self op None <> MetaModify source target m).
Proof.
  intros Hc Hd.
  assert (E : meta self op None
              = MetaRaised (ValueError
                  (model_str model
                   ++ "'s modify is not a supported metadata for rs.meta, which requires a categorical target."))).
  { unfold meta. rewrite Hc, Hd. reflexivity. }
  rewrite E. repeat split; discriminate.
Qed.

Lemma meta_missing_target_witness :
  meta rs_guilds (AMetadata nickname) None
  = MetaRaised (ValueError
      "Nickname's modify is not a supported metadata for rs.meta, which requires a categorical target.")
  /\ meta rs_guilds (AModifies (mkModifies "Nickname.set" nickname)) None
     = MetaRaised (ValueError
         "Nickname's modify is not a supported metadata for rs.meta, which requires a categorical target.").
Proof.
  split.
  - apply (meta_missing_target rs_guilds (AMetadata nickname) None nickname);
      reflexivity.
  - apply (meta_missing_target rs_guilds
             (AModifies (mkModifies "Nickname.set" nickname))
             (Some (mkModifies "Nickname.set" nickname)) nickname);
      reflexivity.
Defined.

(* ================================================================== *)
(** * All element classes: shape of the display strings               *)
(* ================================================================== *)

Import OnebotElements Derived MoreExamples.

Lemma append_assoc (a b c : string) : (a ++ b) ++ c = a ++ (b ++ c).
Proof. induction a as [|x a IH]; cbn; [reflexivity | now rewrite IH]. Qed.

Lemma last_char_append (a b : string) :
  last_char (a ++ b)
  = match last_char b with
    | Some c => Some c
    | None => last_char a
    end.
Proof.
  induction a as [|x a IH]; cbn.
  - now destruct (last_char b).
  - rewrite IH. destruct (last_char b); [reflexivity|]. reflexivity.
Qed.

(** X1.  Every element class renders a display string that opens with the
    namespace prefix "[$onebot::" and closes with "]", whatever its field
    values are. *)
Theorem display_has_prefix_and_closing_bracket
    (pyfloat Image MessageChain : Type)
    (str_float : pyfloat -> string) (str_chain : MessageChain -> string)
    (e : Element pyfloat Image MessageChain) :
  String.prefix "[$onebot::" (asDisplay _ _ _ str_float str_chain e) = true
  /\ last_char (asDisplay _ _ _ str_float str_chain e) = Some "]"%char.
Proof.
  split.
  - destruct e; reflexivity.
  - destruct e; try reflexivity;
      unfold asDisplay, Poke_asDisplay, Share_asDisplay, Location_asDisplay,
        MusicShare_asDisplay, CustomMusicShare_asDisplay;
      repeat rewrite last_char_append; reflexivity.
Qed.

Lemma length_append (a b : string) :
  String.length (a ++ b) = String.length a + String.length b.
Proof. induction a as [|x a IH]; cbn; [reflexivity | now rewrite IH]. Qed.

(** X2.  The display string of a Poke does not determine the element: a field
    value that contains ",id=" moves the boundary between type and id.
    Two different elements get the same display string. *)
Theorem Poke_display_is_ambiguous (a b c : string) (n : option string) :
  Poke_asDisplay (mkPoke (a ++ ",id=" ++ b) c n)
  = Poke_asDisplay (mkPoke a (b ++ ",id=" ++ c) n)
  /\ mkPoke (a ++ ",id=" ++ b) c n <> mkPoke a (b ++ ",id=" ++ c) n.
Proof.
  split.
  - unfold Poke_asDisplay. cbn [poke_type poke_id poke_name].
    now rewrite !append_assoc.
  - intros H. apply (f_equal poke_id) in H. cbn [poke_id] in H.
    apply (f_equal String.length) in H.
    rewrite !length_append in H. cbn in H. lia.
Qed.

(** X3.  An optional field that holds a non-empty string is displayed as that
    string; so a Poke named "null" has the display string of a Poke
    without a name. *)
Theorem present_optional_field_is_displayed (t i s : string) :
  s <> "" ->
  Poke_asDisplay (mkPoke t i (Some s))
  = "[$onebot::Poke:type=" ++ t ++ ",id=" ++ i ++ ",name=" ++ s ++ "]"
  /\ (s = "null" ->
      Poke_asDisplay (mkPoke t i (Some s)) = Poke_asDisplay (mkPoke t i None)).
Proof.
  intros Hs. split.
  - unfold Poke_asDisplay. cbn [poke_type poke_id poke_name].
    destruct s; [congruence | reflexivity].
  - intros ->. reflexivity.
Qed.

Lemma present_optional_field_is_displayed_witness :
  Poke_asDisplay (mkPoke "wave" "123" (Some "Bob"))
  = "[$onebot::Poke:type=wave,id=123,name=Bob]".
Proof.
  apply (present_optional_field_is_displayed "wave" "123" "Bob"). discriminate.
Defined.

(* ================================================================== *)
(** * RelationshipExecutor: entering and leaving the middleware scopes *)
(* ================================================================== *)

Lemma enter_contexts_blocked (entered rest stack : list ActionMiddleware)
    (m : ActionMiddleware) (e : exn) :
  Forall enters entered ->
  mw_enter m = Some e ->
  enter_contexts (entered ++ m :: rest) stack
  = (enter_events entered, (rev entered ++ stack)%list, Some e).
Proof.
  revert stack. induction entered as [|x entered IH]; intros stack H Hm; cbn.
  - now rewrite Hm.
  - inversion H as [|? ? Hx Hs]; subst. unfold enters in Hx.
    rewrite Hx, (IH (x :: stack) Hs Hm). unfold enter_events; cbn.
    now rewrite <- app_assoc.
Qed.

Lemma enter_split (ms : list ActionMiddleware) :
  Forall enters ms
  \/ exists entered m rest e,
       ms = (entered ++ m :: rest)%list /\ Forall enters entered /\ mw_enter m = Some e.
Proof.
  induction ms as [|x ms IH].
  - left. constructor.
  - destruct (mw_enter x) as [e|] eqn:E.
    + right. exists [], x, ms, e. repeat split; auto.
    + destruct IH as [H|(entered & m & rest & e & -> & H & Hm)].
      * left. now constructor.
      * right. exists (x :: entered), m, rest, e. repeat split; auto.
Qed.

Lemma dispatch_events (self : RelationshipExecutor) :
  fst (dispatch self) = []
  \/ exists executor,
       In executor (action_executors (protocol (relationship self)))
       /\ fst (dispatch self) = [EvExecute (ex_name executor)].
Proof.
  unfold dispatch. destruct (action self) as [a|]; [|now left].
  destruct (select_executor _ _) as [executor|] eqn:E.
  - right. exists executor. split; [|reflexivity].
    apply select_executor_first in E as (before & after & -> & _).
    apply in_or_app. right. now left.
  - left. now destruct (_target self).
Qed.

(** The events of an execution stopped by a middleware that cannot be
    entered: the scopes entered before it are left again, nothing else
    happens. *)
Lemma await_impl_blocked (self : RelationshipExecutor)
    (entered rest : list ActionMiddleware) (m : ActionMiddleware) (e : exn) :
  rev (middlewares self) = (entered ++ m :: rest)%list ->
  Forall enters entered ->
  mw_enter m = Some e ->
  await_impl self
  = ((enter_events entered ++ exit_events (rev entered))%list,
     snd (async_with_exit (rev entered) (Raised e))).
Proof.
  intros Hs He Hm. unfold await_impl.
  rewrite Hs, (enter_contexts_blocked entered rest [] m e He Hm), app_nil_r.
  pose proof (async_with_exit_events (rev entered) (Raised e)) as E.
  destruct (async_with_exit (rev entered) (Raised e)) as [tr r].
  cbn in *. now rewrite E.
Qed.

(** X5.  Scopes are balanced.  In every execution the middlewares entered form
    an initial part of the reversed middleware list; each of them is left
    exactly once, in the reverse order of entry, no other scope is left,
    and between the entries and the exits at most one registered action
    executor is run. *)
Theorem await_scopes_are_balanced (self : RelationshipExecutor) :
  exists entered rest body,
    rev (middlewares self) = (entered ++ rest)%list
    /\ fst (await_impl self)
       = (enter_events entered ++ body ++ exit_events (rev entered))%list
    /\ (body = []
        \/ exists executor,
             In executor (action_executors (protocol (relationship self)))
             /\ body = [EvExecute (ex_name executor)]).
Proof.
  destruct (enter_split (rev (middlewares self)))
    as [H|(entered & m & rest & e & Hs & H & Hm)].
  - exists (rev (middlewares self)), [], (fst (dispatch self)).
    split; [now rewrite app_nil_r|]. split.
    + rewrite rev_involutive. apply await_impl_events.
      apply Forall_rev in H. now rewrite rev_involutive in H.
    + apply dispatch_events.
  - exists entered, (m :: rest), []. split; [exact Hs|]. split; [|now left].
    now rewrite (await_impl_blocked self entered rest m e Hs H Hm).
Qed.






Lemma exit_callbacks_app (l1 l2 : list ActionMiddleware) exc suppressed pending :
  snd (exit_callbacks (l1 ++ l2) exc suppressed pending)
  = let '(exc1, suppressed1, pending1) :=
      snd (exit_callbacks l1 exc suppressed pending) in
    snd (exit_callbacks l2 exc1 suppressed1 pending1).
Proof.
  revert exc suppressed pending.
  induction l1 as [|m l1 IH]; intros exc suppressed pending.
  - reflexivity.
  - cbn [app exit_callbacks].
    destruct (mw_exit m exc) as [[|]|e];
      match goal with
      | |- context [exit_callbacks (l1 ++ l2) ?a ?b ?c] =>
          specialize (IH a b c);
          destruct (exit_callbacks (l1 ++ l2) a b c) as [tr st];
          destruct (exit_callbacks l1 a b c) as [tr1 [[e1 s1] p1]]
      end; cbn in *; exact IH.
Qed.






Lemma async_with_exit_last_raises (stack : list ActionMiddleware)
    (m : ActionMiddleware) (e : exn) (body : outcome pyval) :
  (forall exc, mw_exit m exc = ExitRaise e) ->
  snd (async_with_exit (stack ++ [m]) body) = Raised e.
Proof.
  intros Hm. unfold async_with_exit.
  match goal with
  | |- context [exit_callbacks (stack ++ [m]) ?x false false] =>
      pose proof (exit_callbacks_app stack [m] x false false) as A;
      destruct (exit_callbacks stack x false false) as [tr1 [[e1 s1] p1]];
      destruct (exit_callbacks (stack ++ [m]) x false false) as [tr st]
  end.
  cbn in A. rewrite Hm in A. cbn in A. subst st. reflexivity.
Qed.

(** X9.  When the outermost middleware (the last of the list, entered
    first and left last) can be entered and its exit always raises [e],
    awaiting the executor raises [e], whatever the inner middlewares did on
    entry or exit and whatever the action executor returned or raised. *)
Theorem outermost_exit_error_wins (self : RelationshipExecutor)
    (inner : list ActionMiddleware) (m : ActionMiddleware) (e : exn) :
  middlewares self = (inner ++ [m])%list ->
  mw_enter m = None ->
  (forall exc, mw_exit m exc = ExitRaise e) ->
  snd (await_impl self) = Raised e.
Proof.
  intros Hs Hin Hm.
  assert (Hrev : rev (middlewares self) = m :: rev inner)
    by (rewrite Hs, rev_app_distr; reflexivity).
  destruct (enter_split (rev inner))
    as [Hall|(entered & b & rest & e0 & Hsplit & Hent & Hb)].
  - assert (He : Forall enters (middlewares self)).
    { rewrite Hs. apply Forall_app. split.
      - apply Forall_rev in Hall. now rewrite rev_involutive in Hall.
      - now repeat constructor. }
    rewrite (await_impl_unwinds self He), Hs.
    now apply async_with_exit_last_raises.
  - rewrite (await_impl_blocked self (m :: entered) rest b e0).
    + cbn [snd rev]. now apply async_with_exit_last_raises.
    + rewrite Hrev, Hsplit. reflexivity.
    + now constructor.
    + exact Hb.
Qed.

Lemma outermost_exit_error_wins_witness :
  snd (await_impl
         (execute (exec (rs_with [mw_swallow; mw_cleanup_fails] [ex_default])) send))
  = Raised denied
  /\ await_impl
       (execute (exec (rs_with [mwA; mw_blocked; mw_cleanup_fails] [ex_default])) send)
     = ([EvEnter "cleanup"; EvExit "cleanup"], Raised denied).
Proof.
  split.
  - apply (outermost_exit_error_wins
             (execute (exec (rs_with [mw_swallow; mw_cleanup_fails] [ex_default])) send)
             [mw_swallow] mw_cleanup_fails denied); reflexivity.
  - rewrite (surjective_pairing (await_impl _)).
    rewrite (outermost_exit_error_wins
               (execute (exec (rs_with [mwA; mw_blocked; mw_cleanup_fails] [ex_default]))
                  send)
               [mwA; mw_blocked] mw_cleanup_fails denied); reflexivity.
Defined.

(* ================================================================== *)
(** * RelationshipExecutor: the builder methods                       *)
(* ================================================================== *)

(** X10.  Middlewares added with [use] wrap the whole execution: they are
    entered before and left after everything the executor did without
    them, the last one added being the outermost. *)
Theorem use_wraps_the_execution (self : RelationshipExecutor)
    (extra : list ActionMiddleware) :
  Forall enters (middlewares self) ->
  Forall enters extra ->
  fst (await_impl (use self extra))
  = (enter_events (rev extra) ++ fst (await_impl self) ++ exit_events extra)%list.
Proof.
  intros Hs Hx.
  assert (Hall : Forall enters (middlewares (use self extra))).
  { cbn. apply Forall_app. now split. }
  rewrite (await_impl_events _ Hall), (await_impl_events self Hs). cbn [use middlewares].
  change (dispatch (use self extra)) with (dispatch self).
  unfold enter_events, exit_events.
  rewrite rev_app_distr, !map_app, <- !app_assoc. reflexivity.
Qed.

Lemma use_wraps_the_execution_witness :
  fst (await_impl (use (execute (exec rs_AB) send) [mwP; mwG]))
  = [EvEnter "framework-level"; EvEnter "protocol-level";
     EvEnter "B"; EvEnter "A"; EvExecute "default"; EvExit "A"; EvExit "B";
     EvExit "protocol-level"; EvExit "framework-level"].
Proof.
  rewrite (use_wraps_the_execution (execute (exec rs_AB) send) [mwP; mwG]).
  - reflexivity.
  - repeat constructor.
  - repeat constructor.
Defined.

(** X12.  Without a resolved target the scan skips every executor that has a
    pattern: the executor run is the first patternless one, if any. *)
Theorem scan_without_target_takes_first_patternless
    (executors : list ActionExecutor) :
  select_executor executors None = find patternless executors.
Proof.
  induction executors as [|e rest IH]; [reflexivity|].
  cbn. unfold patternless at 1. destruct (ex_pattern e); [exact IH | reflexivity].
Qed.

(** X13.  [to] before [execute] fails because no action is stored yet.  After
    [execute], [to(t)] makes [t] the target of the scan in place of the
    default target of the action: the executor run is the first one
    eligible for [t], it receives the action with [t] set as its target,
    and a failed scan reports the path of [t].  The middleware list is
    kept. *)
Theorem to_overrides_the_resolved_target
    (self : RelationshipExecutor) (a : Action) (t : Selector) :
  (action self = None -> exists e, to self t = Raised e)
  /\ (action self = Some a ->
      exists self',
        to self t = Returned self'
        /\ middlewares self' = middlewares self
        /\ dispatch self' = dispatch_for self (set_target a t) t).
Proof.
  split; intros Ha; unfold to; rewrite Ha.
  - eexists; reflexivity.
  - eexists. split; [reflexivity|]. split; [reflexivity|].
    unfold dispatch, dispatch_for. cbn.
    destruct (select_executor _ _); reflexivity.
Qed.

Lemma to_overrides_the_resolved_target_witness :
  action (execute (exec rs_ordered) send) = Some send
  /\ exists self',
       to (execute (exec rs_ordered) send) sel_a = Returned self'
       /\ dispatch self' = ([EvExecute "prefix"], Returned (PyVal "prefix")).
Proof.
  split; [reflexivity|].
  destruct (proj2 (to_overrides_the_resolved_target
                     (execute (exec rs_ordered) send) send sel_a) eq_refl)
    as (self' & Hto & _ & Hd).
  exists self'. split; [exact Hto|]. rewrite Hd. reflexivity.
Defined.

(* ================================================================== *)
(** * Relationship.query: edge cases and composition of the stages    *)
(* ================================================================== *)

Lemma fold_without_land self (p : dict pvalue) (st : dict pvalue * list stream) :
  fold_left (query_step self) p st
  = fold_left (query_step self) (without_land p) st.
Proof.
  revert st. induction p as [|[k v] p IH]; intros [past stack]; [reflexivity|].
  cbn [fold_left without_land filter fst].
  destruct (String.eqb k "land") eqn:E; cbn [negb].
  - cbn [query_step]. rewrite E. apply IH.
  - cbn [fold_left]. apply IH.
Qed.

(** X14.  A pattern that names the land and nothing else opens no stage: the
    query raises IndexError before any value (and not the ValueError of
    the empty selector). *)
Theorem land_only_pattern_raises_IndexError (self : Relationship) (p : dict pvalue) :
  p <> [] ->
  without_land p = [] ->
  query self (mkSelector p) = ([], Some (IndexError "list index out of range")).
Proof.
  intros Hne Hl. unfold query, Selector_empty. cbn [pattern].
  destruct p as [|kv p]; [congruence|].
  rewrite (fold_only_land self (kv :: p) _ Hl). reflexivity.
Qed.

Lemma land_only_pattern_raises_IndexError_witness :
  query rs_guilds (mkSelector [("land", PStr "qq")])
  = ([], Some (IndexError "list index out of range")).
Proof.
  apply (land_only_pattern_raises_IndexError rs_guilds [("land", PStr "qq")]).
  - discriminate.
  - reflexivity.
Defined.

(** X15.  The entry for the land is never read: a pattern and the same pattern
    without its land entry give the same query, as soon as one other level
    is present; the land used is the one of the protocol. *)
Theorem land_entry_of_the_pattern_is_ignored (self : Relationship) (p : dict pvalue) :
  without_land p <> [] ->
  query self (mkSelector p) = query self (mkSelector (without_land p)).
Proof.
  intros Hne. unfold query, Selector_empty. cbn [pattern].
  rewrite (fold_without_land self p).
  destruct p as [|kv p]; [reflexivity|].
  destruct (without_land (kv :: p)) as [|kv' p'] eqn:E; [congruence|].
  assert (Hidem : without_land (kv' :: p') = kv' :: p').
  { rewrite <- E. unfold without_land.
    apply forallb_filter_id. apply forallb_forall. intros x Hx.
    now apply filter_In in Hx. }
  now rewrite (fold_without_land self (kv' :: p')), Hidem.
Qed.

Lemma land_entry_of_the_pattern_is_ignored_witness :
  query rs_guilds (mkSelector [("land", PStr "elsewhere"); ("guild", PWild)])
  = query rs_guilds (mkSelector [("guild", PWild)]).
Proof.
  apply (land_entry_of_the_pattern_is_ignored rs_guilds
           [("land", PStr "elsewhere"); ("guild", PWild)]).
  discriminate.
Defined.

Lemma without_land_keys (p : dict pvalue) (k : string) :
  In k (dict_keys (without_land p)) -> k <> "land" /\ In k (dict_keys p).
Proof.
  unfold dict_keys, without_land. intros H.
  apply in_map_iff in H as ([k' v'] & <- & Hf).
  apply filter_In in Hf as [Hin Hb]. cbn in *. split.
  - apply String.eqb_neq. now destruct (String.eqb k' "land").
  - apply in_map_iff. now exists (k', v').
Qed.

Lemma fold_dict_set_fresh (d acc : dict pvalue) :
  NoDup (dict_keys acc ++ dict_keys d)%list ->
  fold_left (fun a kv => dict_set a (fst kv) (snd kv)) d acc = (acc ++ d)%list.
Proof.
  revert acc. induction d as [|[k v] d IH]; intros acc H; cbn.
  - now rewrite app_nil_r.
  - cbn in H. rewrite dict_set_fresh.
    + rewrite IH; [now rewrite <- app_assoc|].
      unfold dict_keys in *. rewrite map_app, <- app_assoc. exact H.
    + apply NoDup_remove_2 in H. intros Hin. apply H, in_or_app. now left.
Qed.

Lemma last_stage_pattern self (p : dict pvalue) (k : string) (v : pvalue) :
  NoDup (dict_keys (p ++ [(k, v)])%list) ->
  k <> "land" ->
  dict_set (fst (query_state self p)) k v = (without_land p ++ [(k, v)])%list.
Proof.
  intros Hnd Hk.
  assert (Hsplit : NoDup (dict_keys p ++ [k])%list).
  { unfold dict_keys in *. now rewrite map_app in Hnd. }
  rewrite (run_past self p) by (now apply NoDup_app_remove_r in Hsplit).
  apply dict_set_fresh. intros Hin. apply without_land_keys in Hin as [_ Hin].
  apply NoDup_remove_2 in Hsplit. rewrite app_nil_r in Hsplit. contradiction.
Qed.

(** The last stage of a pattern that ends with a served wildcard level,
    when an upstream stage exists. *)
Lemma query_wildcard_expand self (p : dict pvalue) (k : string) (q : querier_fn) :
  NoDup (dict_keys (p ++ [(k, PWild)])%list) ->
  k <> "land" ->
  without_land p <> [] ->
  served_by self p k q ->
  query self (mkSelector (p ++ [(k, PWild)])%list)
  = expand (fun u => q (scope_of self) u (Selector_match (depth_pattern self p k)))
      (fst (query self (mkSelector p))) (snd (query self (mkSelector p))).
Proof.
  intros Hnd Hk Hne (querier & Hfind & Hget).
  rewrite (query_last self p k PWild Hk).
  rewrite (last_stage_pattern self p k PWild Hnd Hk).
  destruct (top (snd (query_state self p))) as [s|] eqn:E;
    [|exfalso; revert E; now apply fold_stack_opened].
  rewrite (query_top self p s E).
  rewrite (generate_from_upper_last self _ (Some s)
             (dict_keys (without_land p)) k)
    by (cbn [pattern]; unfold dict_keys; now rewrite map_app).
  cbv zeta. fold (seen_path p). rewrite Hfind, Hget.
  assert (Hhd : String.eqb (hd k (dict_keys (without_land p))) "land" = false).
  { destruct (without_land p) as [|[k0 v0] r] eqn:Ew; [congruence|].
    cbn. apply String.eqb_neq.
    apply (without_land_keys p k0). rewrite Ew. now left. }
  rewrite Hhd. cbn [negb pattern].
  assert (Hdepth : mkSelector
                     (with_land (land_name (land (protocol self)))
                        (without_land p ++ [(k, PWild)])%list)
                   = depth_pattern self p k).
  { unfold depth_pattern, with_land. f_equal.
    rewrite fold_dict_set_fresh; [reflexivity|].
    cbn. constructor.
    - unfold dict_keys. rewrite map_app. intros Hin.
      apply in_app_or in Hin as [Hin|[Hin|[]]].
      + now apply (without_land_keys p "land") in Hin as [Hl _].
      + cbn in Hin. congruence.
    - unfold dict_keys in *. rewrite map_app. cbn.
      rewrite map_app in Hnd. cbn in Hnd.
      assert (Hp : NoDup (map fst p)) by now apply NoDup_app_remove_r in Hnd.
      apply NoDup_remove_2 in Hnd. rewrite app_nil_r in Hnd.
      pose proof (NoDup_keys_without_land p Hp) as Hw.
      clear - Hw Hnd. unfold dict_keys in Hw.
      assert (Hk : ~ In k (map fst (without_land p))).
      { intros Hin. apply Hnd. now apply (without_land_keys p k). }
      revert Hw Hk. generalize (map fst (without_land p)).
      induction l as [|x l IH]; intros Hw Hk; cbn.
      + constructor; [intros [] | constructor].
      + inversion Hw; subst. constructor.
        * intros Hin. apply in_app_or in Hin as [Hin|[<-|[]]]; [contradiction|].
          apply Hk. now left.
        * apply IH; [assumption|]. intros Hin. apply Hk. now right. }
  rewrite Hdepth. now destruct s.
Qed.

Lemma expand_all_ok (f : Selector -> stream) (values : list Selector) (err : option exn) :
  (forall u, In u values -> snd (f u) = None) ->
  expand f values err = (flat_map (fun u => fst (f u)) values, err).
Proof.
  induction values as [|u values IH]; intros H; cbn; [reflexivity|].
  pose proof (H u (or_introl eq_refl)) as Hu.
  destruct (f u) as [ys e]. cbn in Hu. subst e.
  rewrite IH by (intros x Hx; apply H; now right). reflexivity.
Qed.

Lemma expand_first_failure (f : Selector -> stream)
    (before after : list Selector) (u : Selector) (err : option exn) (e : exn) :
  (forall x, In x before -> snd (f x) = None) ->
  snd (f u) = Some e ->
  expand f (before ++ u :: after) err
  = ((flat_map (fun x => fst (f x)) before ++ fst (f u))%list, Some e).
Proof.
  induction before as [|x before IH]; intros H Hu; cbn.
  - destruct (f u) as [ys e']. cbn in Hu. now subst e'.
  - pose proof (H x (or_introl eq_refl)) as Hx.
    destruct (f x) as [ys e']. cbn in Hx. subst e'.
    rewrite IH by (try (intros y Hy; apply H; now right); assumption).
    now rewrite <- app_assoc.
Qed.

(** X16.  A wildcard level below other levels asks its generator once for each
    selector of the upstream stage, in order, with the depth pattern
    (land, then the levels so far) as match predicate.  When no call
    fails, the query yields the concatenation of what the calls yield and
    then ends as the upstream stage ends. *)
Theorem wildcard_level_concatenates_per_upstream
    (self : Relationship) (p : dict pvalue) (k : string) (q : querier_fn) :
  NoDup (dict_keys (p ++ [(k, PWild)])%list) ->
  k <> "land" ->
  without_land p <> [] ->
  served_by self p k q ->
  (forall u, In u (fst (query self (mkSelector p))) ->
             snd (q (scope_of self) u (Selector_match (depth_pattern self p k))) = None) ->
  query self (mkSelector (p ++ [(k, PWild)])%list)
  = (flat_map
       (fun u => fst (q (scope_of self) u (Selector_match (depth_pattern self p k))))
       (fst (query self (mkSelector p))),
     snd (query self (mkSelector p))).
Proof.
  intros Hnd Hk Hne Hs Hok.
  rewrite (query_wildcard_expand self p k q Hnd Hk Hne Hs).
  now apply expand_all_ok.
Qed.

Lemma wildcard_level_concatenates_per_upstream_witness :
  query rs_tree (mkSelector [("guild", PStr "G1"); ("channel", PWild)])
  = ([mkSelector [("guild", PStr "G1"); ("channel", PStr "a")];
      mkSelector [("guild", PStr "G1"); ("channel", PStr "b")]], None).
Proof.
  etransitivity;
    [apply (wildcard_level_concatenates_per_upstream rs_tree
              [("guild", PStr "G1")] "channel" channels_of) | reflexivity].
  - cbn. repeat constructor; cbn; intuition discriminate.
  - discriminate.
  - discriminate.
  - eexists. split; reflexivity.
  - intros u [<-|[]]. reflexivity.
Defined.

(** X17.  The first call of the generator that fails ends the query: the values
    of the calls before it and the values the failing call yielded before
    raising are produced, then its exception; the upstream selectors after
    it are not expanded and the end of the upstream stage is not seen. *)
Theorem wildcard_level_stops_at_first_failure
    (self : Relationship) (p : dict pvalue) (k : string) (q : querier_fn)
    (before after : list Selector) (u : Selector) (e : exn) :
  NoDup (dict_keys (p ++ [(k, PWild)])%list) ->
  k <> "land" ->
  without_land p <> [] ->
  served_by self p k q ->
  fst (query self (mkSelector p)) = (before ++ u :: after)%list ->
  (forall x, In x before ->
             snd (q (scope_of self) x (Selector_match (depth_pattern self p k))) = None) ->
  snd (q (scope_of self) u (Selector_match (depth_pattern self p k))) = Some e ->
  query self (mkSelector (p ++ [(k, PWild)])%list)
  = ((flat_map
        (fun x => fst (q (scope_of self) x (Selector_match (depth_pattern self p k))))
        before
      ++ fst (q (scope_of self) u (Selector_match (depth_pattern self p k))))%list,
     Some e).
Proof.
  intros Hnd Hk Hne Hs Hup Hok Hu.
  rewrite (query_wildcard_expand self p k q Hnd Hk Hne Hs), Hup.
  now apply (expand_first_failure
               (fun x => q (scope_of self) x (Selector_match (depth_pattern self p k)))).
Qed.

Lemma wildcard_level_stops_at_first_failure_witness :
  query rs_tree (mkSelector [("guild", PWild); ("channel", PWild)])
  = ([mkSelector [("land", PStr "qq"); ("guild", PStr "G1"); ("channel", PStr "a")];
      mkSelector [("land", PStr "qq"); ("guild", PStr "G1"); ("channel", PStr "b")]],
     Some boom).
Proof.
  etransitivity;
    [apply (wildcard_level_stops_at_first_failure rs_tree
              [("guild", PWild)] "channel" channels_of
              [guild "G1"] [] (guild "G2") boom) | reflexivity].
  - cbn. repeat constructor; cbn; intuition discriminate.
  - discriminate.
  - discriminate.
  - eexists. split; reflexivity.
  - reflexivity.
  - intros x [<-|[]]. reflexivity.
  - reflexivity.
Defined.

Lemma dict_get_set_same {V} (d : dict V) (k : string) (v : V) :
  dict_get (dict_set d k v) k = Some v.
Proof.
  induction d as [|[k' v'] d IH]; cbn.
  - now rewrite String.eqb_refl.
  - destruct (String.eqb k' k) eqn:E; cbn; now rewrite E.
Qed.

Lemma dict_get_set_other {V} (d : dict V) (k k' : string) (v : V) :
  k' <> k -> dict_get (dict_set d k v) k' = dict_get d k'.
Proof.
  intros Hk. induction d as [|[k0 v0] d IH]; cbn.
  - apply String.eqb_neq in Hk. rewrite String.eqb_sym in Hk. now rewrite Hk.
  - destruct (String.eqb k0 k) eqn:E; cbn.
    + apply String.eqb_eq in E. subst k0.
      assert (Hn : String.eqb k k' = false) by (apply String.eqb_neq; congruence).
      now rewrite Hn.
    + now rewrite IH.
Qed.

Lemma query_concrete_narrows self (p : dict pvalue) (k v : string) :
  k <> "land" ->
  without_land p <> [] ->
  query self (mkSelector (p ++ [(k, PStr v)])%list)
  = (map (narrow k v) (fst (query self (mkSelector p))),
     snd (query self (mkSelector p))).
Proof.
  intros Hk Hne. rewrite (query_last self p k (PStr v) Hk).
  destruct (top (snd (query_state self p))) as [s|] eqn:E.
  - rewrite (query_top self p s E). now destruct s.
  - exfalso. revert E. now apply fold_stack_opened.
Qed.

(** X18.  A level with a concrete value yields one selector for each selector
    of the upstream stage, at the same position; in it the level holds
    the given value and every other key holds what the upstream selector
    held.  The stage ends as the upstream stage ends. *)
Theorem concrete_level_sets_only_its_key
    (self : Relationship) (p : dict pvalue) (k v : string) :
  k <> "land" ->
  without_land p <> [] ->
  let upstream := query self (mkSelector p) in
  let result := query self (mkSelector (p ++ [(k, PStr v)])%list) in
  length (fst result) = length (fst upstream)
  /\ snd result = snd upstream
  /\ forall i u,
       nth_error (fst upstream) i = Some u ->
       exists s,
         nth_error (fst result) i = Some s
         /\ dict_get (pattern s) k = Some (PStr v)
         /\ forall k', k' <> k -> dict_get (pattern s) k' = dict_get (pattern u) k'.
Proof.
  intros Hk Hne upstream result.
  assert (E : result = (map (narrow k v) (fst upstream), snd upstream))
    by exact (query_concrete_narrows self p k v Hk Hne).
  rewrite E. cbn [fst snd]. split; [apply length_map|]. split; [reflexivity|].
  intros i u Hu. exists (narrow k v u). split.
  - now rewrite nth_error_map, Hu.
  - unfold narrow. cbn [pattern]. split.
    + apply dict_get_set_same.
    + intros k' Hk'. now apply dict_get_set_other.
Qed.

Lemma concrete_level_sets_only_its_key_witness :
  length (fst (query rs_guilds
                 (mkSelector [("guild", PWild); ("channel", PStr "C")]))) = 2
  /\ exists s,
       nth_error (fst (query rs_guilds
                        (mkSelector [("guild", PWild); ("channel", PStr "C")]))) 1
       = Some s
       /\ dict_get (pattern s) "channel" = Some (PStr "C")
       /\ dict_get (pattern s) "guild" = Some (PStr "G2").
Proof.
  destruct (concrete_level_sets_only_its_key rs_guilds [("guild", PWild)] "channel" "C")
    as (Hlen & _ & Hnth); [discriminate | discriminate |].
  split; [exact Hlen|].
  destruct (Hnth 1 (guild "G2") eq_refl) as (s & Hs & Hk & Hother).
  exists s. split; [exact Hs|]. split; [exact Hk|].
  rewrite Hother; [reflexivity | discriminate].
Defined.

(** X19.  Registration order decides among query handlers: a handler without
    prefix that comes first is taken for every level, and when it has no
    generator for the level the query raises NotImplementedError even if
    a later handler could serve the level. *)
Theorem prefixless_handler_hides_later_handlers
    (self : Relationship) (h : QueryHandler) (rest : list QueryHandler)
    (p : dict pvalue) (k : string) :
  query_handlers (protocol self) = h :: rest ->
  qh_prefix h = None ->
  dict_get (queriers h) k = None ->
  NoDup (dict_keys (p ++ [(k, PWild)])%list) ->
  k <> "land" ->
  query self (mkSelector (p ++ [(k, PWild)])%list)
  = ([], Some (NotImplementedError
                 ("No querier found for " ++ seen_path p ++ ", " ++ k
                  ++ " unimplemented"))).
Proof.
  intros Hh Hp Hg Hnd Hk.
  rewrite (query_wildcard_last self p k Hnd Hk). cbv zeta.
  rewrite Hh. cbn [find_query_handler]. now rewrite Hp, Hg.
Qed.

Lemma prefixless_handler_hides_later_handlers_witness :
  query rs_shadowed (mkSelector [("guild", PWild)])
  = ([], Some (NotImplementedError "No querier found for , guild unimplemented"))
  /\ query rs_guilds (mkSelector [("guild", PWild)])
     = ([guild "G1"; guild "G2"], None).
Proof.
  split; [|reflexivity].
  apply (prefixless_handler_hides_later_handlers rs_shadowed
           (mkQueryHandler None []) [guild_handler] [] "guild").
  - reflexivity.
  - reflexivity.
  - reflexivity.
  - cbn. repeat constructor; cbn; intuition discriminate.
  - discriminate.
Defined.

(* ================================================================== *)
(** * Relationship.meta: targets, sources and failures                *)
(* ================================================================== *)

Lemma meta_dispatch_success (self : Relationship)
    (modify : option MetadataModifies) (model : Model) (t : pyany)
    (sel : Selector) (src : MetadataSource) :
  resolved_selector t = Some sel ->
  source_for self t sel = Some src ->
  meta_dispatch self modify model t
  = match modify with
    | None => MetaFetch src t model
    | Some md => MetaModify src t md
    end.
Proof.
  unfold resolved_selector, source_for, meta_dispatch. intros Hsel Hsrc.
  destruct (as_selector t) as [s|].
  - injection Hsel as ->. destruct (as_resource t) as [r|].
    + destruct (get_provider (protocol self) r) as [pv|]; [|discriminate].
      rewrite Hsrc. now destruct modify.
    + rewrite Hsrc. now destruct modify.
  - rewrite Hsel. destruct (as_resource t) as [r|].
    + destruct (get_provider (protocol self) r) as [pv|]; [|discriminate].
      rewrite Hsrc. now destruct modify.
    + rewrite Hsrc. now destruct modify.
Qed.

Lemma meta_dispatch_inversion (self : Relationship)
    (modify : option MetadataModifies) (model : Model) (t : pyany) :
  (exists sel src,
      resolved_selector t = Some sel
      /\ source_for self t sel = Some src
      /\ meta_dispatch self modify model t
         = match modify with
           | None => MetaFetch src t model
           | Some md => MetaModify src t md
           end)
  \/ exists msg, meta_dispatch self modify model t = MetaRaised (ValueError msg).
Proof.
  destruct (resolved_selector t) as [sel|] eqn:Hsel.
  - destruct (source_for self t sel) as [src|] eqn:Hsrc.
    + left. exists sel, src. split; [reflexivity|]. split; [exact Hsrc|].
      now apply meta_dispatch_success with (sel := sel).
    + right. unfold resolved_selector, source_for, meta_dispatch in *.
      destruct (as_selector t) as [s|].
      * injection Hsel as ->. destruct (as_resource t) as [r|].
        -- destruct (get_provider (protocol self) r) as [pv|];
             [rewrite Hsrc; destruct modify|]; eexists; reflexivity.
        -- rewrite Hsrc. destruct modify; eexists; reflexivity.
      * rewrite Hsel. destruct (as_resource t) as [r|].
        -- destruct (get_provider (protocol self) r) as [pv|];
             [rewrite Hsrc; destruct modify|]; eexists; reflexivity.
        -- rewrite Hsrc. destruct modify; eexists; reflexivity.
  - right. unfold resolved_selector, meta_dispatch in *.
    destruct (as_selector t); [discriminate|]. rewrite Hsel.
    eexists; reflexivity.
Qed.

(** X20.  Omitting the target means the default target of the model: when the
    default target is truthy, [meta(operator)] and
    [meta(default_target, operator)] have the same outcome. *)
Theorem default_target_equals_explicit_target (self : Relationship) (op : pyany)
    (modify : option MetadataModifies) (model : Model) (d : pyobject) :
  classify op = Some (modify, model) ->
  get_default_target model (scope_of self) = Some d ->
  obj_truthy d = true ->
  meta self op None = meta self (AObject d) (Some op).
Proof.
  intros Hc Hd Ht. unfold meta. rewrite Hc, Hd. cbn. now rewrite Ht.
Qed.

Lemma default_target_equals_explicit_target_witness :
  meta rs_meta (AMetadata avatar_of_ctx) None
  = MetaFetch (mkSource "profile") (AObject friend) avatar_of_ctx
  /\ meta rs_meta (AObject friend) (Some (AMetadata avatar_of_ctx))
     = MetaFetch (mkSource "profile") (AObject friend) avatar_of_ctx.
Proof.
  split; [reflexivity|].
  rewrite <- (default_target_equals_explicit_target rs_meta
                (AMetadata avatar_of_ctx) None avatar_of_ctx friend);
    reflexivity.
Defined.

(** X21.  An explicit target that is falsy is dropped: the call behaves as if
    no target had been given, so the default target of the model is used
    or the missing-target error is raised. *)
Theorem falsy_explicit_target_is_dropped (self : Relationship) (op t : pyany)
    (modify : option MetadataModifies) (model : Model) :
  classify op = Some (modify, model) ->
  any_truthy t = false ->
  meta self t (Some op) = meta self op None.
Proof.
  intros Hc Ht. unfold meta. rewrite Hc. cbn. now rewrite Ht.
Qed.

Lemma falsy_explicit_target_is_dropped_witness :
  meta rs_meta (AObject nothing) (Some (AMetadata avatar_of_ctx))
  = MetaFetch (mkSource "profile") (AObject friend) avatar_of_ctx
  /\ meta rs_meta (AObject nothing) (Some (AMetadata nickname))
     = MetaRaised (ValueError
         "Nickname's modify is not a supported metadata for rs.meta, which requires a categorical target.").
Proof.
  split.
  - rewrite (falsy_explicit_target_is_dropped rs_meta (AMetadata avatar_of_ctx)
               (AObject nothing) None avatar_of_ctx); reflexivity.
  - rewrite (falsy_explicit_target_is_dropped rs_meta (AMetadata nickname)
               (AObject nothing) None nickname); reflexivity.
Defined.

(** X22.  A truthy explicit target that resolves to a selector and for which a
    metadata source is found gets the operation dispatched to that
    source: a fetch for a metadata type or cell, a modify for a
    MetadataModifies.  The source receives the target as given, not the
    selector it resolves to. *)
Theorem meta_dispatches_to_the_resolved_source (self : Relationship)
    (op t : pyany) (modify : option MetadataModifies) (model : Model)
    (sel : Selector) (src : MetadataSource) :
  classify op = Some (modify, model) ->
  any_truthy t = true ->
  resolved_selector t = Some sel ->
  source_for self t sel = Some src ->
  meta self t (Some op)
  = match modify with
    | None => MetaFetch src t model
    | Some md => MetaModify src t md
    end.
Proof.
  intros Hc Ht Hsel Hsrc. unfold meta. rewrite Hc. cbn. rewrite Ht.
  now apply meta_dispatch_success with (sel := sel).
Qed.

Lemma meta_dispatches_to_the_resolved_source_witness :
  meta rs_meta (AObject friend)
    (Some (AModifies (mkModifies "Nickname.set" nickname)))
  = MetaModify (mkSource "profile") (AObject friend)
      (mkModifies "Nickname.set" nickname).
Proof.
  apply (meta_dispatches_to_the_resolved_source rs_meta
           (AModifies (mkModifies "Nickname.set" nickname)) (AObject friend)
           (Some (mkModifies "Nickname.set" nickname)) nickname
           (mkSelector [("land", PStr "qq"); ("friend", PStr "1")])
           (mkSource "profile")); reflexivity.
Defined.

(** X23.  What [meta] can end with.  A fetch or modify reaches a source only for
    a recognised operator, with a target that resolves to a selector and
    the source found for it; a modify carries the MetadataModifies given
    as operator.  Every failure is a TypeError when the operator is not
    recognised and a ValueError otherwise. *)
Theorem meta_outcomes (self : Relationship) (x : pyany) (y : option pyany) :
  match classify (operator_of x y) with
  | None => exists msg, meta self x y = MetaRaised (TypeError msg)
  | Some (modify, model) =>
      (exists msg, meta self x y = MetaRaised (ValueError msg))
      \/ exists t sel src,
           resolved_selector t = Some sel
           /\ source_for self t sel = Some src
           /\ meta self x y
              = match modify with
                | None => MetaFetch src t model
                | Some md => MetaModify src t md
                end
  end.
Proof.
  unfold meta, operator_of.
  destruct y as [op|].
  - destruct (classify op) as [[modify model]|]; [|eexists; reflexivity].
    destruct (target_or _ _) as [t|]; [|left; eexists; reflexivity].
    destruct (meta_dispatch_inversion self modify model t)
      as [(sel & src & Hs & Hsrc & E)|[msg E]].
    + right. now exists t, sel, src.
    + left. now exists msg.
  - destruct (classify x) as [[modify model]|]; [|eexists; reflexivity].
    destruct (target_or _ _) as [t|]; [|left; eexists; reflexivity].
    destruct (meta_dispatch_inversion self modify model t)
      as [(sel & src & Hs & Hsrc & E)|[msg E]].
    + right. now exists t, sel, src.
    + left. now exists msg.
Qed.

(** X24.  A resource for which no provider is found is served by neither entry
    point: [fetch] raises ValueError, and so does [meta] with the resource
    as target, even when the protocol has a metadata source for the
    selector of the resource. *)
Theorem resource_without_provider_is_unsupported (self : Relationship)
    (type_str : Resource -> string)
    (provider_fetch : ResourceProvider -> Resource -> rs_scope -> outcome pyval)
    (r : Resource) (o : pyobject) (sel : Selector)
    (op : pyany) (modify : option MetadataModifies) (model : Model) :
  get_provider (protocol self) r = None ->
  obj_as_resource o = Some r ->
  obj_truthy o = true ->
  resolved_selector (AObject o) = Some sel ->
  classify op = Some (modify, model) ->
  fetch type_str provider_fetch self r
  = Raised (ValueError (type_str r ++ " is not a supported resource."))
  /\ meta self (AObject o) (Some op)
     = MetaRaised (ValueError
         ("cannot find a valid provider for resource " ++ obj_str o
          ++ " to use rs.meta")).
Proof.
  intros Hp Hr Ht Hsel Hc. split.
  - unfold fetch. now rewrite Hp.
  - unfold meta. rewrite Hc. cbn. rewrite Ht.
    unfold meta_dispatch, resolved_selector in *. cbn in *.
    destruct (obj_as_selector o) as [s|].
    + now rewrite Hr, Hp.
    + now rewrite Hsel, Hr, Hp.
Qed.

Lemma resource_without_provider_is_unsupported_witness :
  fetch (fun _ => "<class 'Picture'>") (fun _ _ _ => Returned PyNone) rs_meta picture
  = Raised (ValueError "<class 'Picture'> is not a supported resource.")
  /\ meta rs_meta (AObject picture_obj) (Some (AMetadata nickname))
     = MetaRaised (ValueError
         "cannot find a valid provider for resource Picture(1) to use rs.meta").
Proof.
  apply (resource_without_provider_is_unsupported rs_meta
           (fun _ => "<class 'Picture'>") (fun _ _ _ => Returned PyNone)
           picture picture_obj
           (mkSelector [("land", PStr "qq"); ("picture", PStr "1")])
           (AMetadata nickname) None nickname); reflexivity.
Defined.

(* ================================================================== *)
(** * Elements with one string field: the display determines them     *)
(* ================================================================== *)

Lemma append_cancel_r (a b c : string) : a ++ c = b ++ c -> a = b.
Proof.
  revert b. induction a as [|x a IH]; intros [|y b] H; cbn in H.
  - reflexivity.
  - apply (f_equal String.length) in H. cbn in H.
    rewrite length_append in H. lia.
  - apply (f_equal String.length) in H. cbn in H.
    rewrite length_append in H. lia.
  - injection H as -> H. f_equal. now apply IH.
Qed.

(** X4.  Among the classes that hold a single string (FriendRecommend,
    GroupRecommend, Reply, MergedForward, MergedForwardNode, XmlMessage,
    JsonMessage) the display string determines the element: two such
    elements with the same display string are the same element. *)
Theorem single_field_display_determines_element
    (pyfloat Image MessageChain : Type)
    (str_float : pyfloat -> string) (str_chain : MessageChain -> string)
    (e1 e2 : Element pyfloat Image MessageChain) :
  single_string_field e1 = true ->
  single_string_field e2 = true ->
  asDisplay _ _ _ str_float str_chain e1 = asDisplay _ _ _ str_float str_chain e2 ->
  e1 = e2.
Proof.
  intros H1 H2 H.
  destruct e1; try discriminate H1; destruct e2; try discriminate H2;
    cbn in H; try discriminate H;
    injection H as H; apply append_cancel_r in H; now subst.
Qed.

Lemma single_field_display_determines_element_witness :
  single_string_field (EReply unit unit unit "42") = true
  /\ asDisplay _ _ _ (fun _ : unit => "") (fun _ : unit => "")
       (EReply unit unit unit "42") = "[$onebot::Reply:id=42]"
  /\ EReply unit unit unit "42" = EReply unit unit unit "42".
Proof.
  split; [reflexivity|]. split; [reflexivity|].
  apply (single_field_display_determines_element unit unit unit
           (fun _ => "") (fun _ => "")
           (EReply _ _ _ "42") (EReply _ _ _ "42")); reflexivity.
Defined.
